(** * Ola Ride Insights: cleaning, aggregate tables, persistence and queries

    A shallow embedding of

    - [OlaDataProcessor] (src/data_processor.py): [load_data], [clean_data],
      [create_database], [_create_summary_tables];
    - [process_data] and [create_summary_tables] (run_project.py);
    - [DatabaseManager.execute_query_to_dataframe] and
      [BusinessQueries.get_top_customers] (src/database_manager.py).

    A data frame is a list of rows, a row a record of typed cells.  The
    pandas and SQLite primitives the code calls are given their documented
    meaning on such cells; what is abstracted is said where it is defined. *)

From Stdlib Require Import ZArith QArith Qround String Ascii List Bool Lia.
From Stdlib Require Import Permutation Sorted.
From stdpp Require Import base gmap strings.
Import ListNotations.

Local Open Scope Z_scope.

(** ** Floating-point cells

    A float64 is modelled without rounding, as a rational or one of the two
    infinities.  NaN is pandas' missing value, so a nullable numeric cell is
    an [option float] with [None] for NaN.  Signed zeros are not told apart. *)

Module Float.

Inductive float : Type :=
| Fin (q : Q)
| PInf
| NInf.

Definition of_Z (z : Z) : float := Fin (inject_Z z).

(** [x <= y] and [x < y] on non-NaN values. *)
Definition leb (x y : float) : bool :=
  match x, y with
  | NInf, _ => true
  | _, PInf => true
  | Fin a, Fin b => Qle_bool a b
  | _, _ => false
  end.

Definition ltb (x y : float) : bool := negb (leb y x).

(** Comparisons of a nullable cell with 0; every comparison with NaN is
    false. *)
Definition gt0 (c : option float) : bool :=
  match c with Some x => ltb (Fin 0) x | None => false end.

Definition ge0 (c : option float) : bool :=
  match c with Some x => leb (Fin 0) x | None => false end.

Definition lt0 (c : option float) : bool :=
  match c with Some x => ltb x (Fin 0) | None => false end.

Definition isna (c : option float) : bool :=
  match c with Some _ => false | None => true end.

(** Division of two non-NaN values: dividing by zero gives an infinity (or
    NaN for 0/0), it never raises. *)
Definition div_val (x y : float) : option float :=
  match x, y with
  | Fin a, Fin b =>
      if Qeq_bool b 0 then
        if Qeq_bool a 0 then None
        else if Qle_bool 0 a then Some PInf else Some NInf
      else Some (Fin (Qred (a / b)))
  | Fin _, _ => Some (Fin 0)
  | PInf, Fin b => if Qle_bool 0 b then Some PInf else Some NInf
  | NInf, Fin b => if Qle_bool 0 b then Some NInf else Some PInf
  | _, _ => None
  end.

Definition div (x y : option float) : option float :=
  match x, y with
  | Some a, Some b => div_val a b
  | _, _ => None
  end.

Definition add_val (x y : float) : option float :=
  match x, y with
  | Fin a, Fin b => Some (Fin (Qred (a + b)))
  | PInf, NInf | NInf, PInf => None
  | PInf, _ | _, PInf => Some PInf
  | NInf, _ | _, NInf => Some NInf
  end.

Definition add (x y : option float) : option float :=
  match x, y with
  | Some a, Some b => add_val a b
  | _, _ => None
  end.

(** Rounding to two decimals, halves away from zero. *)
Definition round2_Q (q : Q) : Q :=
  if Qle_bool 0 q
  then Qred (Qmake (Qfloor (q * 100 + (1 # 2))) 100)
  else Qred (Qmake (- Qfloor (- q * 100 + (1 # 2))) 100).

Definition round2 (x : float) : float :=
  match x with
  | Fin q => Fin (round2_Q q)
  | PInf => PInf
  | NInf => NInf
  end.

End Float.

Import Float.

(** ** Calendar dates and times of day *)

Record date : Type := mkDate { d_year : Z; d_month : Z; d_day : Z }.

Record time : Type := mkTime { t_hour : Z; t_minute : Z; t_second : Z }.

#[global] Instance date_eq_dec : EqDecision date.
Proof. solve_decision. Defined.

(** Days since 1970-01-01 in the proleptic Gregorian calendar. *)
Definition days_from_civil (d : date) : Z :=
  let y := if d_month d <=? 2 then d_year d - 1 else d_year d in
  let era := y / 400 in
  let yoe := y - era * 400 in
  let mp := if d_month d >? 2 then d_month d - 3 else d_month d + 9 in
  let doy := (153 * mp + 2) / 5 + d_day d - 1 in
  let doe := yoe * 365 + yoe / 4 - yoe / 100 + doy in
  era * 146097 + doe - 719468.

(** [Series.dt.day_name()]. *)
Definition day_name (d : date) : string :=
  match (days_from_civil d + 3) mod 7 with
  | 0 => "Monday"
  | 1 => "Tuesday"
  | 2 => "Wednesday"
  | 3 => "Thursday"
  | 4 => "Friday"
  | 5 => "Saturday"
  | _ => "Sunday"
  end%string.

Definition date_leb (a b : date) : bool :=
  (d_year a <? d_year b)
  || ((d_year a =? d_year b)
      && ((d_month a <? d_month b)
          || ((d_month a =? d_month b) && (d_day a <=? d_day b)))).

(** ** Data frames *)

(** A cell of a numeric column as the loader leaves it: a number, a missing
    value, or text (the sentinel 'null' among others). *)
Inductive cell : Type :=
| NaN
| Num (x : float)
| Text (s : string).

(** The twenty columns of the 'July' sheet.  [N] is the type of the cells of
    the six numeric columns: [cell] in a loaded frame, [option float] once
    [pd.to_numeric] has run.  A text cell is an [option string] with [None]
    for a missing value.  The Date and the Time cell are typed: a calendar
    date and a time of day as the loader's type inference produces them,
    [None] for NaT; how pandas reads dates and times written as text is not
    part of the model. *)
Record columns (N : Type) : Type := mkColumns {
  Booking_ID : option string;
  Date : option date;
  Time : option time;
  Customer_ID : option string;
  Vehicle_Type : option string;
  Pickup_Location : option string;
  Drop_Location : option string;
  Booking_Status : option string;
  V_TAT : N;
  C_TAT : N;
  Canceled_Rides_by_Customer : option string;
  Canceled_Rides_by_Driver : option string;
  Incomplete_Rides : option string;
  Incomplete_Rides_Reason : option string;
  Booking_Value : N;
  Payment_Method : option string;
  Ride_Distance : N;
  Driver_Ratings : N;
  Customer_Rating : N;
  Vehicle_Images : option string
}.

Arguments mkColumns {N}.
Arguments Booking_ID {N} _.
Arguments Date {N} _.
Arguments Time {N} _.
Arguments Customer_ID {N} _.
Arguments Vehicle_Type {N} _.
Arguments Pickup_Location {N} _.
Arguments Drop_Location {N} _.
Arguments Booking_Status {N} _.
Arguments V_TAT {N} _.
Arguments C_TAT {N} _.
Arguments Canceled_Rides_by_Customer {N} _.
Arguments Canceled_Rides_by_Driver {N} _.
Arguments Incomplete_Rides {N} _.
Arguments Incomplete_Rides_Reason {N} _.
Arguments Booking_Value {N} _.
Arguments Payment_Method {N} _.
Arguments Ride_Distance {N} _.
Arguments Driver_Ratings {N} _.
Arguments Customer_Rating {N} _.
Arguments Vehicle_Images {N} _.

(** A row of the frame [pd.read_excel] returns. *)
Definition raw_row : Type := columns cell.

(** A row of the frame [OlaDataProcessor.clean_data] returns: the sheet's
    columns and the nine derived ones. *)
Record row : Type := mkRow {
  cols : columns (option float);
  Year : option Z;
  Month : option Z;
  Day : option Z;
  Weekday : option string;
  Hour : option Z;
  Is_Successful : Z;
  Is_Customer_Cancel : Z;
  Is_Driver_Cancel : Z;
  Revenue_Per_KM : option float
}.

(** A row of the frame [process_data] of run_project.py builds: it derives
    neither cancellation flag. *)
Record project_row : Type := mkProjectRow {
  p_cols : columns (option float);
  p_Year : option Z;
  p_Month : option Z;
  p_Day : option Z;
  p_Weekday : option string;
  p_Hour : option Z;
  p_Is_Successful : Z;
  p_Revenue_Per_KM : option float
}.

(** *** pandas primitives on cells *)

(** [df.replace('null', np.nan)] on a text cell and on a numeric cell. *)
Definition replace_null (c : option string) : option string :=
  match c with
  | Some s => if String.eqb s "null" then None else Some s
  | None => None
  end.

Definition replace_null_cell (c : cell) : cell :=
  match c with
  | Text s => if String.eqb s "null" then NaN else Text s
  | _ => c
  end.

(** [Series == 'Success'] followed by [.astype(int)]: a missing status
    compares unequal. *)
Definition eq_Success (status : option string) : bool :=
  match status with
  | Some s => String.eqb s "Success"
  | None => false
  end.

Definition astype_int (b : bool) : Z := if b then 1 else 0.

(** [Series.str.contains(pat, na=False)] for a pattern without regular
    expression operators: substring search, false on a missing value. *)
Fixpoint contains (pat s : string) : bool :=
  String.prefix pat s
  || match s with
     | EmptyString => false
     | String _ s' => contains pat s'
     end.

Definition str_contains (pat : string) (c : option string) : bool :=
  match c with
  | Some s => contains pat s
  | None => false
  end.

(** [Series.fillna(0)]. *)
Definition fillna0 (c : option float) : option float :=
  match c with
  | Some x => Some x
  | None => Some (Fin 0)
  end.

(** [.dt.hour] of the timestamp assembled from the Date and the Time cell;
    missing when either is. *)
Definition hour_of (d : option date) (t : option time) : option Z :=
  match d, t with
  | Some _, Some t' => Some (t_hour t')
  | _, _ => None
  end.

Section Cleaning.

(** How [pd.to_numeric] reads a text cell: [None] when the text is not a
    number, which [errors='coerce'] turns into NaN. *)
Variable parse_float : string -> option float.

Definition to_numeric (c : cell) : option float :=
  match c with
  | NaN => None
  | Num x => Some x
  | Text s => parse_float s
  end.

(** Steps 1 and 2 of [clean_data], which [process_data] shares: the
    sentinel 'null' becomes a missing value in every column, and the six
    numeric columns are coerced.  On the typed Date and Time cells
    [pd.to_datetime] and [.dt.time] change nothing. *)
Definition coerce (r : raw_row) : columns (option float) :=
  let num c := to_numeric (replace_null_cell c) in
  {| Booking_ID := replace_null (Booking_ID r);
     Date := Date r;
     Time := Time r;
     Customer_ID := replace_null (Customer_ID r);
     Vehicle_Type := replace_null (Vehicle_Type r);
     Pickup_Location := replace_null (Pickup_Location r);
     Drop_Location := replace_null (Drop_Location r);
     Booking_Status := replace_null (Booking_Status r);
     V_TAT := num (V_TAT r);
     C_TAT := num (C_TAT r);
     Canceled_Rides_by_Customer := replace_null (Canceled_Rides_by_Customer r);
     Canceled_Rides_by_Driver := replace_null (Canceled_Rides_by_Driver r);
     Incomplete_Rides := replace_null (Incomplete_Rides r);
     Incomplete_Rides_Reason := replace_null (Incomplete_Rides_Reason r);
     Booking_Value := num (Booking_Value r);
     Payment_Method := replace_null (Payment_Method r);
     Ride_Distance := num (Ride_Distance r);
     Driver_Ratings := num (Driver_Ratings r);
     Customer_Rating := num (Customer_Rating r);
     Vehicle_Images := replace_null (Vehicle_Images r) |}.

(** Step 4 of [clean_data]: the distance of a row that is not a success is
    filled with 0, the payment method of a success with 'Cash'. *)
Definition fill_missing (c : columns (option float)) : columns (option float) :=
  let cancelled_mask := negb (eq_Success (Booking_Status c)) in
  let success_mask := eq_Success (Booking_Status c) in
  {| Booking_ID := Booking_ID c;
     Date := Date c;
     Time := Time c;
     Customer_ID := Customer_ID c;
     Vehicle_Type := Vehicle_Type c;
     Pickup_Location := Pickup_Location c;
     Drop_Location := Drop_Location c;
     Booking_Status := Booking_Status c;
     V_TAT := V_TAT c;
     C_TAT := C_TAT c;
     Canceled_Rides_by_Customer := Canceled_Rides_by_Customer c;
     Canceled_Rides_by_Driver := Canceled_Rides_by_Driver c;
     Incomplete_Rides := Incomplete_Rides c;
     Incomplete_Rides_Reason := Incomplete_Rides_Reason c;
     Booking_Value := Booking_Value c;
     Payment_Method :=
       match Payment_Method c with
       | None => if success_mask then Some "Cash"%string else None
       | Some m => Some m
       end;
     Ride_Distance :=
       if cancelled_mask then fillna0 (Ride_Distance c) else Ride_Distance c;
     Driver_Ratings := Driver_Ratings c;
     Customer_Rating := Customer_Rating c;
     Vehicle_Images := Vehicle_Images c |}.

(** Steps 1 to 4 of [clean_data] on one row.  [np.where] evaluates the
    quotient for every row and then selects; the features are derived from
    the columns as they are before the missing values are filled. *)
Definition clean_row (r : raw_row) : row :=
  let c := coerce r in
  let is_successful := astype_int (eq_Success (Booking_Status c)) in
  let quotient := Float.div (Booking_Value c) (Ride_Distance c) in
  {| cols := fill_missing c;
     Year := option_map d_year (Date c);
     Month := option_map d_month (Date c);
     Day := option_map d_day (Date c);
     Weekday := option_map day_name (Date c);
     Hour := hour_of (Date c) (Time c);
     Is_Successful := is_successful;
     Is_Customer_Cancel := astype_int (str_contains "Customer" (Booking_Status c));
     Is_Driver_Cancel := astype_int (str_contains "Driver" (Booking_Status c));
     Revenue_Per_KM :=
       if gt0 (Ride_Distance c) && (is_successful =? 1) then quotient else None |}.

(** Step 5 of [clean_data]: the two boolean-mask selections. *)
Definition booking_value_ok (r : row) : bool :=
  ge0 (Booking_Value (cols r)) || isna (Booking_Value (cols r)).

Definition ride_distance_ok (r : row) : bool :=
  ge0 (Ride_Distance (cols r)) || isna (Ride_Distance (cols r)).

(** [OlaDataProcessor.clean_data], as a function of [self.raw_data]. *)
Definition clean_data (raw_data : list raw_row) : list row :=
  let cleaned := List.map clean_row raw_data in
  let cleaned := List.filter booking_value_ok cleaned in
  List.filter ride_distance_ok cleaned.

(** [removed_count] of step 5, the figure the method logs. *)
Definition removed_count (raw_data : list raw_row) : Z :=
  let initial_count := Z.of_nat (List.length (List.map clean_row raw_data)) in
  initial_count - Z.of_nat (List.length (clean_data raw_data)).

(** The feature engineering of [process_data] (run_project.py) on one row:
    no cancellation flags, no filling, and the quotient is stored for every
    row. *)
Definition process_row (r : raw_row) : project_row :=
  let c := coerce r in
  {| p_cols := c;
     p_Year := option_map d_year (Date c);
     p_Month := option_map d_month (Date c);
     p_Day := option_map d_day (Date c);
     p_Weekday := option_map day_name (Date c);
     p_Hour := hour_of (Date c) (Time c);
     p_Is_Successful := astype_int (eq_Success (Booking_Status c));
     p_Revenue_Per_KM := Float.div (Booking_Value c) (Ride_Distance c) |}.

(** The numeric value [clean_data] reads in a cell of the sheet. *)
Definition numeric (c : cell) : option float :=
  to_numeric (replace_null_cell c).

(** The rows step 5 removes: a booking value or a ride distance that is a
    number below zero. *)
Definition dropped (r : raw_row) : bool :=
  lt0 (numeric (Booking_Value r)) || lt0 (numeric (Ride_Distance r)).

End Cleaning.



(** ** SQL aggregates

    A group is the list of the rows that share a key.  [SUM] and [AVG] skip
    NULL and are NULL when nothing is left; a sum that is NaN is stored as
    NULL. *)

Module Sql.

Fixpoint non_null (vals : list (option float)) : list float :=
  match vals with
  | [] => []
  | Some x :: vals' => x :: non_null vals'
  | None :: vals' => non_null vals'
  end.

Fixpoint total (xs : list float) : option float :=
  match xs with
  | [] => Some (Fin 0)
  | x :: xs' => Float.add (Some x) (total xs')
  end.

Definition sum (vals : list (option float)) : option float :=
  match non_null vals with
  | [] => None
  | xs => total xs
  end.

Definition avg (vals : list (option float)) : option float :=
  match non_null vals with
  | [] => None
  | xs => Float.div (total xs) (Some (of_Z (Z.of_nat (List.length xs))))
  end.

(** [ROUND(x, 2)]. *)
Definition round (x : option float) : option float := option_map round2 x.

Definition max_date (vals : list (option date)) : option date :=
  List.fold_right
    (fun v acc =>
       match v, acc with
       | Some d, Some m => if date_leb d m then Some m else Some d
       | Some d, None => Some d
       | None, _ => acc
       end) None vals.

Section Grouping.

Context {R K : Type} `{EqDecision K}.

Definition count_star (g : list R) : Z := Z.of_nat (List.length g).

(** [SUM] of an integer column that holds no NULL, over a group. *)
Definition sum_int (f : R -> Z) (g : list R) : Z :=
  List.fold_right Z.add 0 (List.map f g).

Fixpoint insert_group (k : K) (r : R) (gs : list (K * list R)) : list (K * list R) :=
  match gs with
  | [] => [(k, [r])]
  | (k', g) :: gs' =>
      if bool_decide (k = k') then (k', g ++ [r]) :: gs'
      else (k', g) :: insert_group k r gs'
  end.

(** [GROUP BY key]: one group per distinct key, NULL being a key like any
    other; the groups come in the order in which their keys first occur. *)
Definition group_by (key : R -> K) (rows : list R) : list (K * list R) :=
  List.fold_left (fun gs r => insert_group (key r) r gs) rows [].

(** The number of rows held by a list of groups. *)
Definition rows_in (gs : list (K * list R)) : nat :=
  List.list_sum (List.map (fun kg => List.length (snd kg)) gs).

(** What [GROUP BY key] is to return for the rows [seen]: one group per key
    that occurs, holding the rows of that key in their order. *)
Definition groups_of (key : R -> K) (seen : list R) (gs : list (K * list R)) : Prop :=
  List.NoDup (List.map fst gs)
  /\ (forall k g, In (k, g) gs ->
        g <> [] /\ g = List.filter (fun r => bool_decide (key r = k)) seen)
  /\ (forall r, In r seen -> In (key r) (List.map fst gs)).

Fixpoint insert_sorted (leb : R -> R -> bool) (x : R) (l : list R) : list R :=
  match l with
  | [] => [x]
  | y :: l' => if leb x y then x :: l else y :: insert_sorted leb x l'
  end.

(** A stable sort: rows that compare equal keep their order. *)
Definition sort_by (leb : R -> R -> bool) (l : list R) : list R :=
  List.fold_right (insert_sorted leb) [] l.

(** [LIMIT n]: a negative [n] is no limit. *)
Definition limit (n : Z) (l : list R) : list R :=
  if n <? 0 then l else List.firstn (Z.to_nat n) l.

End Grouping.

(** The order of SQLite on nullable reals and dates: NULL sorts first. *)
Definition real_leb (a b : option float) : bool :=
  match a, b with
  | None, _ => true
  | Some _, None => false
  | Some x, Some y => Float.leb x y
  end.

Definition date_key_leb (a b : option date) : bool :=
  match a, b with
  | None, _ => true
  | Some _, None => false
  | Some x, Some y => date_leb x y
  end.

(** What [ORDER BY key DESC] allows as a result: the same rows, each key at
    least the keys after it.  Rows with equal keys may come in any order. *)
Definition ordered_desc {R : Type} (key : R -> option float) (l : list R) : Prop :=
  StronglySorted (fun a b => real_leb (key b) (key a) = true) l.

Definition order_by_desc {R : Type} (key : R -> option float) (l l' : list R) : Prop :=
  Permutation l l' /\ ordered_desc key l'.

End Sql.

(** ** The persisted tables *)

(** The columns of [rides] the queries read: the sheet's columns and the
    success flag, which both pipelines write. *)
Record rides_view : Type := mkView {
  v_cols : columns (option float);
  v_Is_Successful : Z
}.

Definition view_of_row (r : row) : rides_view :=
  {| v_cols := cols r; v_Is_Successful := Is_Successful r |}.

Definition view_of_project_row (r : project_row) : rides_view :=
  {| v_cols := p_cols r; v_Is_Successful := p_Is_Successful r |}.

Module VehicleSummary.
Record t : Type := mk {
  Vehicle_Type : option string;
  Total_Bookings : Z;
  Successful_Bookings : Z;
  Avg_Booking_Value : option float;
  Total_Revenue : option float;
  Avg_Distance : option float;
  Total_Distance : option float;
  Avg_Driver_Rating : option float;
  Avg_Customer_Rating : option float
}.
End VehicleSummary.

Module DailySummary.
Record t : Type := mk {
  Date : option date;
  Total_Bookings : Z;
  Successful_Bookings : Z;
  Total_Revenue : option float;
  Avg_Booking_Value : option float;
  Total_Distance : option float
}.
End DailySummary.

Module CustomerSummary.
Record t : Type := mk {
  Customer_ID : option string;
  Total_Bookings : Z;
  Successful_Bookings : Z;
  Total_Spent : option float;
  Avg_Rating_Given : option float;
  Last_Booking_Date : option date
}.
End CustomerSummary.

(** The daily and the customer table of run_project.py have fewer columns. *)
Module ProjectDailySummary.
Record t : Type := mk {
  Date : option date;
  Total_Bookings : Z;
  Successful_Bookings : Z;
  Total_Revenue : option float;
  Avg_Booking_Value : option float
}.
End ProjectDailySummary.

Module ProjectCustomerSummary.
Record t : Type := mk {
  Customer_ID : option string;
  Total_Bookings : Z;
  Successful_Bookings : Z;
  Total_Spent : option float;
  Avg_Rating_Given : option float
}.
End ProjectCustomerSummary.

Inductive table : Type :=
| RidesT (rows : list row)
| ProjectRidesT (rows : list project_row)
| VehicleT (rows : list VehicleSummary.t)
| DailyT (rows : list DailySummary.t)
| CustomerT (rows : list CustomerSummary.t)
| ProjectDailyT (rows : list ProjectDailySummary.t)
| ProjectCustomerT (rows : list ProjectCustomerSummary.t).

(** The SQLite file: its tables by name. *)
Abbreviation database := (gmap string table).

(** [FROM rides]: [None] when the statement fails because there is no such
    table (or it has not the columns of a rides table). *)
Definition select_rides (conn : database) : option (list rides_view) :=
  match conn !! "rides"%string with
  | Some (RidesT rows) => Some (List.map view_of_row rows)
  | Some (ProjectRidesT rows) => Some (List.map view_of_project_row rows)
  | _ => None
  end.

(** [CASE WHEN Is_Successful = 1 THEN x ELSE 0 END] and
    [CASE WHEN Is_Successful = 1 THEN x END]. *)
Definition when_successful_else_0 (x : rides_view -> option float) (r : rides_view)
  : option float :=
  if v_Is_Successful r =? 1 then x r else Some (Fin 0).

Definition when_successful (x : rides_view -> option float) (r : rides_view)
  : option float :=
  if v_Is_Successful r =? 1 then x r else None.

Definition col (f : columns (option float) -> option float) (r : rides_view)
  : option float := f (v_cols r).

(** *** The summary tables of src/data_processor.py *)

Module DataProcessorSql.

(** [vehicle_summary_query]: every aggregate ranges over all the rows of the
    group. *)
Definition vehicle_summary_query (rides : list rides_view) : list VehicleSummary.t :=
  List.map
    (fun '(k, g) =>
       {| VehicleSummary.Vehicle_Type := k;
          VehicleSummary.Total_Bookings := Sql.count_star g;
          VehicleSummary.Successful_Bookings := Sql.sum_int v_Is_Successful g;
          VehicleSummary.Avg_Booking_Value := Sql.avg (List.map (col Booking_Value) g);
          VehicleSummary.Total_Revenue := Sql.sum (List.map (col Booking_Value) g);
          VehicleSummary.Avg_Distance := Sql.avg (List.map (col Ride_Distance) g);
          VehicleSummary.Total_Distance := Sql.sum (List.map (col Ride_Distance) g);
          VehicleSummary.Avg_Driver_Rating := Sql.avg (List.map (col Driver_Ratings) g);
          VehicleSummary.Avg_Customer_Rating := Sql.avg (List.map (col Customer_Rating) g) |})
    (Sql.group_by (fun r => Vehicle_Type (v_cols r)) rides).

Definition daily_summary_query (rides : list rides_view) : list DailySummary.t :=
  Sql.sort_by
    (fun a b => Sql.date_key_leb (DailySummary.Date a) (DailySummary.Date b))
    (List.map
       (fun '(k, g) =>
          {| DailySummary.Date := k;
             DailySummary.Total_Bookings := Sql.count_star g;
             DailySummary.Successful_Bookings := Sql.sum_int v_Is_Successful g;
             DailySummary.Total_Revenue := Sql.sum (List.map (col Booking_Value) g);
             DailySummary.Avg_Booking_Value := Sql.avg (List.map (col Booking_Value) g);
             DailySummary.Total_Distance := Sql.sum (List.map (col Ride_Distance) g) |})
       (Sql.group_by (fun r => Date (v_cols r)) rides)).

(** [ORDER BY Total_Spent DESC] is taken as the stable sort: customers with
    equal totals stay in group order, one of the orders SQLite may give. *)
Definition customer_summary_query (rides : list rides_view) : list CustomerSummary.t :=
  Sql.sort_by
    (fun a b =>
       Sql.real_leb (CustomerSummary.Total_Spent b) (CustomerSummary.Total_Spent a))
    (List.map
       (fun '(k, g) =>
          {| CustomerSummary.Customer_ID := k;
             CustomerSummary.Total_Bookings := Sql.count_star g;
             CustomerSummary.Successful_Bookings := Sql.sum_int v_Is_Successful g;
             CustomerSummary.Total_Spent := Sql.sum (List.map (col Booking_Value) g);
             CustomerSummary.Avg_Rating_Given := Sql.avg (List.map (col Customer_Rating) g);
             CustomerSummary.Last_Booking_Date :=
               Sql.max_date (List.map (fun r => Date (v_cols r)) g) |})
       (Sql.group_by (fun r => Customer_ID (v_cols r)) rides)).

End DataProcessorSql.

(** *** The summary tables of run_project.py *)

Module ProjectSql.

(** [vehicle_summary_query]: the revenue, the distances and the ratings are
    conditioned on the success flag, [Avg_Booking_Value] is not. *)
Definition vehicle_summary_query (rides : list rides_view) : list VehicleSummary.t :=
  List.map
    (fun '(k, g) =>
       {| VehicleSummary.Vehicle_Type := k;
          VehicleSummary.Total_Bookings := Sql.count_star g;
          VehicleSummary.Successful_Bookings := Sql.sum_int v_Is_Successful g;
          VehicleSummary.Avg_Booking_Value :=
            Sql.round (Sql.avg (List.map (col Booking_Value) g));
          VehicleSummary.Total_Revenue :=
            Sql.round (Sql.sum (List.map (when_successful_else_0 (col Booking_Value)) g));
          VehicleSummary.Avg_Distance :=
            Sql.round (Sql.avg (List.map (when_successful (col Ride_Distance)) g));
          VehicleSummary.Total_Distance :=
            Sql.round (Sql.sum (List.map (when_successful_else_0 (col Ride_Distance)) g));
          VehicleSummary.Avg_Driver_Rating :=
            Sql.round (Sql.avg (List.map (when_successful (col Driver_Ratings)) g));
          VehicleSummary.Avg_Customer_Rating :=
            Sql.round (Sql.avg (List.map (when_successful (col Customer_Rating)) g)) |})
    (Sql.group_by (fun r => Vehicle_Type (v_cols r)) rides).

Definition daily_summary_query (rides : list rides_view) : list ProjectDailySummary.t :=
  Sql.sort_by
    (fun a b =>
       Sql.date_key_leb (ProjectDailySummary.Date a) (ProjectDailySummary.Date b))
    (List.map
       (fun '(k, g) =>
          {| ProjectDailySummary.Date := k;
             ProjectDailySummary.Total_Bookings := Sql.count_star g;
             ProjectDailySummary.Successful_Bookings := Sql.sum_int v_Is_Successful g;
             ProjectDailySummary.Total_Revenue :=
               Sql.round (Sql.sum (List.map (when_successful_else_0 (col Booking_Value)) g));
             ProjectDailySummary.Avg_Booking_Value :=
               Sql.round (Sql.avg (List.map (when_successful (col Booking_Value)) g)) |})
       (Sql.group_by (fun r => Date (v_cols r)) rides)).

Definition customer_summary_query (rides : list rides_view)
  : list ProjectCustomerSummary.t :=
  List.map
    (fun '(k, g) =>
       {| ProjectCustomerSummary.Customer_ID := k;
          ProjectCustomerSummary.Total_Bookings := Sql.count_star g;
          ProjectCustomerSummary.Successful_Bookings := Sql.sum_int v_Is_Successful g;
          ProjectCustomerSummary.Total_Spent :=
            Sql.round (Sql.sum (List.map (when_successful_else_0 (col Booking_Value)) g));
          ProjectCustomerSummary.Avg_Rating_Given :=
            Sql.round (Sql.avg (List.map (when_successful (col Customer_Rating)) g)) |})
    (Sql.group_by (fun r => Customer_ID (v_cols r)) rides).

End ProjectSql.

(** *** Statements on a connection *)

(** [DataFrame.to_sql(name, conn, if_exists='replace')]. *)
Definition to_sql_replace (name : string) (t : table) (conn : database) : database :=
  <[name := t]> conn.

(** [CREATE TABLE IF NOT EXISTS name AS SELECT ... FROM rides]: nothing
    happens when a table of that name exists; otherwise the table is made
    of the rows the query selects.  [None] is the statement raising. *)
Definition create_table_if_not_exists_as
    (name : string) (select : list rides_view -> table) (conn : database)
  : option database :=
  match conn !! name with
  | Some _ => Some conn
  | None =>
      match select_rides conn with
      | Some rides => Some (<[name := select rides]> conn)
      | None => None
      end
  end.

Definition and_then {A B : Type} (x : option A) (f : A -> option B) : option B :=
  match x with
  | Some a => f a
  | None => None
  end.

Notation "x >>= f" := (and_then x f) (at level 50, left associativity, only parsing).

(** ** The excel source *)

Inductive excel_file : Type :=
| Missing
| Unreadable
| Workbook (july : option (list raw_row)).

(** [pd.read_excel(path, sheet_name='July')]: [None] is the call raising (no
    file, not a workbook, no such sheet).  A sheet with its header and no
    data rows is the empty frame. *)
Definition read_excel (src : excel_file) : option (list raw_row) :=
  match src with
  | Missing => None
  | Unreadable => None
  | Workbook july => july
  end.

(** What a run can write: the CSV of the cleaned frame and the database. *)
Inductive csv_file : Type :=
| CleanCsv (rows : list row)
| ProjectCsv (rows : list project_row).

Record world : Type := mkWorld {
  processed_csv : option csv_file;
  db : database
}.

(** ** OlaDataProcessor *)

Module OlaDataProcessor.

(** The attributes [self.raw_data] and [self.clean_data]. *)
Record self : Type := mkSelf {
  self_raw_data : option (list raw_row);
  self_clean_data : option (list row)
}.

(** [__init__]. *)
Definition init : self := {| self_raw_data := None; self_clean_data := None |}.

(** [load_data]: the frame, or [None] after the exception is printed. *)
Definition load_data (src : excel_file) (s : self) : option (list raw_row) * self :=
  match read_excel src with
  | Some df => (Some df, {| self_raw_data := Some df; self_clean_data := self_clean_data s |})
  | None => (None, s)
  end.

Section Methods.

Variable parse_float : string -> option float.

(** The method [clean_data], as [OlaDataProcessor.clean_data(self)]: on an
    instance the attribute of the same name, which [__init__] sets, hides
    the method. *)
Definition clean_data_method (s : self) : option (list row) * self :=
  match self_raw_data s with
  | None => (None, s)
  | Some raw =>
      let cleaned := clean_data parse_float raw in
      (Some cleaned, {| self_raw_data := self_raw_data s; self_clean_data := Some cleaned |})
  end.

End Methods.

(** [save_cleaned_data]. *)
Definition save_cleaned_data (s : self) (w : world) : bool * world :=
  match self_clean_data s with
  | None => (false, w)
  | Some cleaned => (true, {| processed_csv := Some (CleanCsv cleaned); db := db w |})
  end.

(** [_create_summary_tables]. *)
Definition _create_summary_tables (conn : database) : option database :=
  create_table_if_not_exists_as "vehicle_summary"
    (fun rides => VehicleT (DataProcessorSql.vehicle_summary_query rides)) conn
  >>= create_table_if_not_exists_as "daily_summary"
        (fun rides => DailyT (DataProcessorSql.daily_summary_query rides))
  >>= create_table_if_not_exists_as "customer_summary"
        (fun rides => CustomerT (DataProcessorSql.customer_summary_query rides)).

(** [create_database]: the method's boolean and the database it leaves.  An
    exception in the summary tables is caught after [rides] is written. *)
Definition create_database (s : self) (conn : database) : bool * database :=
  match self_clean_data s with
  | None => (false, conn)
  | Some cleaned =>
      let conn1 := to_sql_replace "rides" (RidesT cleaned) conn in
      match _create_summary_tables conn1 with
      | Some conn2 => (true, conn2)
      | None => (false, conn1)
      end
  end.

End OlaDataProcessor.

(** ** run_project.py *)

Module RunProject.

(** [create_summary_tables]; the indexes it adds hold no rows of their
    own. *)
Definition create_summary_tables (conn : database) : option database :=
  create_table_if_not_exists_as "vehicle_summary"
    (fun rides => VehicleT (ProjectSql.vehicle_summary_query rides)) conn
  >>= create_table_if_not_exists_as "daily_summary"
        (fun rides => ProjectDailyT (ProjectSql.daily_summary_query rides))
  >>= create_table_if_not_exists_as "customer_summary"
        (fun rides => ProjectCustomerT (ProjectSql.customer_summary_query rides)).

Section ProcessData.

Variable parse_float : string -> option float.

(** [process_data]: every exception is caught at the end of the function,
    which then returns [False] with what was written so far. *)
Definition process_data (src : excel_file) (w : world) : bool * world :=
  match read_excel src with
  | None => (false, w)
  | Some sheet =>
      let df := List.map (process_row parse_float) sheet in
      let csv := Some (ProjectCsv df) in
      let conn1 := to_sql_replace "rides" (ProjectRidesT df) (db w) in
      match create_summary_tables conn1 with
      | Some conn2 => (true, {| processed_csv := csv; db := conn2 |})
      | None => (false, {| processed_csv := csv; db := conn1 |})
      end
  end.

End ProcessData.

End RunProject.

(** ** src/database_manager.py *)

(** What a call does: it raises, or it returns a frame. *)
Inductive outcome (A : Type) : Type :=
| Raised (e : string)
| Returned (df : list A).

Arguments Raised {A} e.
Arguments Returned {A} df.

Module DatabaseManager.

(** [execute_query_to_dataframe]: whatever the query raises is logged and
    an empty frame is returned in its place. *)
Definition execute_query_to_dataframe {A : Type} (run : outcome A) : outcome A :=
  match run with
  | Returned df => Returned df
  | Raised _ => Returned []
  end.

End DatabaseManager.

Module TopCustomers.
Record t : Type := mk {
  Customer_ID : option string;
  Total_Bookings : Z;
  Successful_Bookings : Z;
  Total_Spent : option float;
  Avg_Booking_Value : option float;
  Success_Rate : option float
}.
End TopCustomers.

Module BusinessQueries.

(** [CASE WHEN Booking_Status = 'Success' THEN ... END] and its variants. *)
Definition is_success (r : rides_view) : bool := eq_Success (Booking_Status (v_cols r)).

(** The grouped part of the top-customers query, before [ORDER BY]:
    one row per customer, those with [Total_Spent > 0] kept by [HAVING]. *)
Definition customer_totals (rides : list rides_view) : list TopCustomers.t :=
  List.map
    (fun '(k, g) =>
       let successful := Sql.sum_int (fun r => if is_success r then 1 else 0) g in
       {| TopCustomers.Customer_ID := k;
          TopCustomers.Total_Bookings := Sql.count_star g;
          TopCustomers.Successful_Bookings := successful;
          TopCustomers.Total_Spent :=
            Sql.round (Sql.sum (List.map
              (fun r => if is_success r then Booking_Value (v_cols r) else Some (Fin 0)) g));
          TopCustomers.Avg_Booking_Value :=
            Sql.round (Sql.avg (List.map
              (fun r => if is_success r then Booking_Value (v_cols r) else None) g));
          TopCustomers.Success_Rate :=
            Sql.round (Float.div
              (Some (Fin (Qred (inject_Z successful * 100))))
              (Some (of_Z (Sql.count_star g)))) |})
    (Sql.group_by (fun r => Customer_ID (v_cols r)) rides).

Definition having_spent (totals : list TopCustomers.t) : list TopCustomers.t :=
  List.filter (fun c => gt0 (TopCustomers.Total_Spent c)) totals.

(** The range of integers the sqlite3 module binds to a parameter. *)
Definition binds (n : Z) : bool := (- 2 ^ 63 <=? n) && (n <? 2 ^ 63).

(** The query on the connection, with [limit] bound to its parameter.  The
    query text orders by [Total_Spent DESC] and by nothing else, so every
    order of the customers with equal totals is a result. *)
Definition top_customers_query
    (conn : database) (limit : Z) (run : outcome TopCustomers.t) : Prop :=
  if binds limit then
    match select_rides conn with
    | Some rides =>
        exists sorted,
          Sql.order_by_desc TopCustomers.Total_Spent
            (having_spent (customer_totals rides)) sorted
          /\ run = Returned (Sql.limit limit sorted)
    | None => run = Raised "no such table: rides"
    end
  else run = Raised "Python int too large to convert to SQLite INTEGER".

(** [get_top_customers]: what the caller gets and the database after the
    call, which only reads. *)
Definition get_top_customers
    (conn : database) (limit : Z) (res : outcome TopCustomers.t * database) : Prop :=
  exists run,
    top_customers_query conn limit run
    /\ res = (DatabaseManager.execute_query_to_dataframe run, conn).

End BusinessQueries.

(** ** Sample frames *)

(** A row of the sheet with the columns the examples do not use left
    empty. *)
Definition booking (id customer vehicle status : string)
    (value distance : cell) : raw_row :=
  {| Booking_ID := Some id;
     Date := Some (mkDate 2024 7 1);
     Time := Some (mkTime 10 30 0);
     Customer_ID := Some customer;
     Vehicle_Type := Some vehicle;
     Pickup_Location := None;
     Drop_Location := None;
     Booking_Status := Some status;
     V_TAT := NaN;
     C_TAT := NaN;
     Canceled_Rides_by_Customer := None;
     Canceled_Rides_by_Driver := None;
     Incomplete_Rides := None;
     Incomplete_Rides_Reason := None;
     Booking_Value := value;
     Payment_Method := None;
     Ride_Distance := distance;
     Driver_Ratings := NaN;
     Customer_Rating := NaN;
     Vehicle_Images := None |}.

Definition num (z : Z) : cell := Num (of_Z z).

(** A reader of text cells that knows no number. *)
Definition no_parse (s : string) : option float := None.

(** ** Signs of nullable cells *)

Definition negative (c : option float) : Prop :=
  match c with
  | Some (Fin q) => (q < 0)%Q
  | Some NInf => True
  | _ => False
  end.

Definition absent_or_nonnegative (c : option float) : Prop :=
  match c with
  | None => True
  | Some (Fin q) => (0 <= q)%Q
  | Some PInf => True
  | Some NInf => False
  end.

Definition positive (c : option float) : Prop :=
  match c with
  | Some (Fin q) => (0 < q)%Q
  | Some PInf => True
  | _ => False
  end.

(** ** Sample runs *)

(** Nothing persisted yet. *)
Definition fresh : world := {| processed_csv := None; db := ∅ |}.

(** Two bookings the guard of the revenue per kilometre is there for: a
    cancelled one with a distance, and a success with distance 0. *)
Definition cancelled_with_distance : raw_row :=
  booking "B1" "C1" "Auto" "Cancelled by Customer" (num 100) (num 5).

Definition success_without_distance : raw_row :=
  booking "B2" "C2" "Auto" "Success" (num 100) (num 0).

(** One vehicle type with a success of value 100 over distance 10 and a
    cancelled booking of value 300 over distance 4. *)
Definition mixed_sheet : list raw_row :=
  [ booking "B1" "C1" "Auto" "Success" (num 100) (num 10);
    booking "B2" "C2" "Auto" "Cancelled by Driver" (num 300) (num 4) ].

(** The rows of a group that are successes: what an aggregate "over
    successful rows only" ranges over. *)
Definition successful_rows (g : list rides_view) : list rides_view :=
  List.filter (fun r => v_Is_Successful r =? 1) g.

(** Two runs of the pipeline of src/data_processor.py, the first over an
    Auto booking, the second over a Bike booking. *)
Definition first_sheet : list raw_row :=
  [ booking "B1" "C1" "Auto" "Success" (num 100) (num 10) ].

Definition second_sheet : list raw_row :=
  [ booking "B2" "C2" "Bike" "Success" (num 50) (num 5) ].

Definition processor_for (sheet : list raw_row) : OlaDataProcessor.self :=
  snd (OlaDataProcessor.clean_data_method no_parse
         (snd (OlaDataProcessor.load_data (Workbook (Some sheet)) OlaDataProcessor.init))).

Definition after_first_run : database :=
  snd (OlaDataProcessor.create_database (processor_for first_sheet) ∅).

Definition after_second_run : database :=
  snd (OlaDataProcessor.create_database (processor_for second_sheet) after_first_run).

(** A workbook whose 'July' sheet has its header and no data row. *)
Definition empty_sheet : excel_file := Workbook (Some []).

(** What an earlier run of run_project.py has persisted. *)
Definition earlier_run : world :=
  snd (RunProject.process_data no_parse (Workbook (Some first_sheet)) fresh).

(** A real in lowest terms: the form in which sums, quotients and roundings
    are returned. *)
Definition canonical (c : option float) : Prop :=
  match c with
  | Some (Fin q) => Qred q = q
  | _ => True
  end.

(** A database whose [rides] table has two customers, C1 and C2, with one
    success of value 100 each. *)
Definition tied_sheet : list raw_row :=
  [ booking "B1" "C1" "Auto" "Success" (num 100) (num 10);
    booking "B2" "C2" "Bike" "Success" (num 100) (num 20) ].

Definition tied : database :=
  to_sql_replace "rides" (RidesT (clean_data no_parse tied_sheet)) ∅.

Definition spent_100 (customer : string) : TopCustomers.t :=
  {| TopCustomers.Customer_ID := Some customer;
     TopCustomers.Total_Bookings := 1;
     TopCustomers.Successful_Bookings := 1;
     TopCustomers.Total_Spent := Some (Fin 100);
     TopCustomers.Avg_Booking_Value := Some (Fin 100);
     TopCustomers.Success_Rate := Some (Fin 100) |}.

(** ** What a run leaves in the database *)

(** A table under [name] when there is none: the effect of a
    [CREATE TABLE IF NOT EXISTS] that does not raise. *)
Definition create_if_missing (name : string) (t : table) (conn : database) : database :=
  match conn !! name with
  | Some _ => conn
  | None => <[name := t]> conn
  end.

(** ** More of src/database_manager.py *)

(** Further SQL expressions the queries use. *)
Module SqlExpr.

Definition lower_ascii (c : ascii) : ascii :=
  let n := nat_of_ascii c in
  if ((65 <=? n) && (n <=? 90))%nat then ascii_of_nat (n + 32) else c.

Fixpoint lower (s : string) : string :=
  match s with
  | EmptyString => EmptyString
  | String c s' => String (lower_ascii c) (lower s')
  end.

(** [x LIKE '%word%'] for a word without wildcards: SQLite compares the
    ASCII letters without regard to case; NULL matches nothing. *)
Definition like_contains (word : string) (x : option string) : bool :=
  match x with
  | Some s => contains (lower word) (lower s)
  | None => false
  end.

(** [COALESCE(x, default)]. *)
Definition coalesce (x : option string) (default : string) : string :=
  match x with
  | Some s => s
  | None => default
  end.

Definition is_null {A : Type} (x : option A) : bool :=
  match x with
  | Some _ => false
  | None => true
  end.

Section Counting.

Context {R : Type}.

(** [COUNT(CASE WHEN p THEN 1 END)]: the rows on which [p] holds. *)
Definition count_when (p : R -> bool) (rows : list R) : Z :=
  Z.of_nat (List.length (List.filter p rows)).

(** [SUM(CASE WHEN p THEN 1 ELSE 0 END)]: NULL over no row at all. *)
Definition sum_when (p : R -> bool) (rows : list R) : option Z :=
  match rows with
  | [] => None
  | _ => Some (Sql.sum_int (fun r => if p r then 1 else 0) rows)
  end.

(** [COUNT(DISTINCT x)]: the distinct values that are not NULL. *)
Definition count_distinct `{EqDecision K} (x : R -> option K) (rows : list R) : Z :=
  Z.of_nat (List.length (remove_dups (omap x rows))).

End Counting.

(** [ROUND(n * 100.0 / d, 2)] for two counts. *)
Definition percentage (n d : Z) : option float :=
  Sql.round (Float.div (Some (Fin (Qred (inject_Z n * 100)))) (Some (of_Z d))).

Definition min_date (vals : list (option date)) : option date :=
  List.fold_right
    (fun v acc =>
       match v, acc with
       | Some d, Some m => if date_leb d m then Some d else Some m
       | Some d, None => Some d
       | None, _ => acc
       end) None vals.

End SqlExpr.


(** A query over [rides] run on a connection: it raises when there is no
    such table. *)
Definition query_rides {A : Type} (conn : database) (q : list rides_view -> list A)
  : outcome A :=
  match select_rides conn with
  | Some rides => Returned (q rides)
  | None => Raised "no such table: rides"
  end.

(** [execute_query]: the rows, or [None] once the sqlite3 error is logged. *)
Definition execute_query {A : Type} (run : outcome A) : option (list A) :=
  match run with
  | Returned rows => Some rows
  | Raised _ => None
  end.

(** The frame [execute_query_to_dataframe] hands back. *)
Definition frame {A : Type} (run : outcome A) : list A :=
  match DatabaseManager.execute_query_to_dataframe run with
  | Returned df => df
  | Raised _ => []
  end.

(** [get_all_tables]: the names in [sqlite_master]. *)
Definition get_all_tables (conn : database) : list string :=
  (map_to_list conn).*1.


Module NullValues.
Record t : Type := mk {
  total_rows : Z;
  null_booking_ids : option Z;
  null_customer_ids : option Z;
  null_vehicle_types : option Z;
  null_booking_status : option Z;
  null_dates : option Z
}.
End NullValues.

Module DataConsistency.
Record t : Type := mk {
  unique_booking_ids : Z;
  total_records : Z;
  negative_booking_values : Z;
  negative_distances : Z;
  invalid_driver_ratings : Z;
  invalid_customer_ratings : Z
}.
End DataConsistency.

Module StatusDistribution.
Record t : Type := mk {
  Booking_Status : option string;
  count : Z;
  percentage : option float
}.
End StatusDistribution.

Module RidesValidation.
Record t : Type := mk {
  null_values : NullValues.t;
  data_consistency : DataConsistency.t;
  status_distribution : list StatusDistribution.t
}.
End RidesValidation.

Module OverallSummary.
Record t : Type := mk {
  total_bookings : Z;
  unique_customers : Z;
  vehicle_types : Z;
  successful_bookings : option Z;
  total_revenue : option float;
  earliest_date : option date;
  latest_date : option date
}.
End OverallSummary.

Module VehicleRevenue.
Record t : Type := mk {
  Vehicle_Type : option string;
  bookings : Z;
  revenue : option float
}.
End VehicleRevenue.

Module DatabaseSummary.
Record t : Type := mk {
  overall : OverallSummary.t;
  vehicle_performance : list VehicleRevenue.t
}.
End DatabaseSummary.

Module ValidationResults.
Record t : Type := mk {
  tables_exist : bool;
  existing_tables : list string;
  missing_tables : list string;
  data_quality_rides : option RidesValidation.t;
  summary : option DatabaseSummary.t;
  error : option string
}.
End ValidationResults.

Definition status_is_success (r : rides_view) : bool :=
  eq_Success (Booking_Status (v_cols r)).

(** The three queries of [_validate_rides_table] on the rows of [rides]. *)
Definition null_check_query (rides : list rides_view) : NullValues.t :=
  {| NullValues.total_rows := Sql.count_star rides;
     NullValues.null_booking_ids :=
       SqlExpr.sum_when (fun r => SqlExpr.is_null (Booking_ID (v_cols r))) rides;
     NullValues.null_customer_ids :=
       SqlExpr.sum_when (fun r => SqlExpr.is_null (Customer_ID (v_cols r))) rides;
     NullValues.null_vehicle_types :=
       SqlExpr.sum_when (fun r => SqlExpr.is_null (Vehicle_Type (v_cols r))) rides;
     NullValues.null_booking_status :=
       SqlExpr.sum_when (fun r => SqlExpr.is_null (Booking_Status (v_cols r))) rides;
     NullValues.null_dates :=
       SqlExpr.sum_when (fun r => SqlExpr.is_null (Date (v_cols r))) rides |}.

(** [x > 5 OR x < 1], false on NULL. *)
Definition rating_out_of_range (x : option float) : bool :=
  match x with
  | Some v => Float.ltb (Fin 5) v || Float.ltb v (Fin 1)
  | None => false
  end.

Definition consistency_query (rides : list rides_view) : DataConsistency.t :=
  {| DataConsistency.unique_booking_ids :=
       SqlExpr.count_distinct (fun r => Booking_ID (v_cols r)) rides;
     DataConsistency.total_records := Sql.count_star rides;
     DataConsistency.negative_booking_values :=
       SqlExpr.count_when (fun r => lt0 (Booking_Value (v_cols r))) rides;
     DataConsistency.negative_distances :=
       SqlExpr.count_when (fun r => lt0 (Ride_Distance (v_cols r))) rides;
     DataConsistency.invalid_driver_ratings :=
       SqlExpr.count_when (fun r => rating_out_of_range (Driver_Ratings (v_cols r))) rides;
     DataConsistency.invalid_customer_ratings :=
       SqlExpr.count_when (fun r => rating_out_of_range (Customer_Rating (v_cols r))) rides |}.

(** [ORDER BY count DESC] is taken as the stable sort, as for the customer
    summary. *)
Definition status_query (rides : list rides_view) : list StatusDistribution.t :=
  Sql.sort_by
    (fun a b => StatusDistribution.count b <=? StatusDistribution.count a)
    (List.map
       (fun '(k, g) =>
          {| StatusDistribution.Booking_Status := k;
             StatusDistribution.count := Sql.count_star g;
             StatusDistribution.percentage :=
               SqlExpr.percentage (Sql.count_star g) (Sql.count_star rides) |})
       (Sql.group_by (fun r => Booking_Status (v_cols r)) rides)).

(** [_validate_rides_table]: [None] is the [IndexError] of [.iloc[0]] on the
    empty frame a failed query leaves. *)
Definition _validate_rides_table (conn : database) : option RidesValidation.t :=
  match frame (query_rides conn (fun rides => [null_check_query rides])) with
  | [] => None
  | null_results :: _ =>
      match frame (query_rides conn (fun rides => [consistency_query rides])) with
      | [] => None
      | consistency_results :: _ =>
          Some {| RidesValidation.null_values := null_results;
                  RidesValidation.data_consistency := consistency_results;
                  RidesValidation.status_distribution :=
                    frame (query_rides conn status_query) |}
      end
  end.

Definition overall_query (rides : list rides_view) : OverallSummary.t :=
  {| OverallSummary.total_bookings := Sql.count_star rides;
     OverallSummary.unique_customers :=
       SqlExpr.count_distinct (fun r => Customer_ID (v_cols r)) rides;
     OverallSummary.vehicle_types :=
       SqlExpr.count_distinct (fun r => Vehicle_Type (v_cols r)) rides;
     OverallSummary.successful_bookings := SqlExpr.sum_when status_is_success rides;
     OverallSummary.total_revenue :=
       Sql.round (Sql.sum (List.map
         (fun r => if status_is_success r then Booking_Value (v_cols r) else Some (Fin 0))
         rides));
     OverallSummary.earliest_date :=
       SqlExpr.min_date (List.map (fun r => Date (v_cols r)) rides);
     OverallSummary.latest_date :=
       Sql.max_date (List.map (fun r => Date (v_cols r)) rides) |}.

Definition vehicle_query (rides : list rides_view) : list VehicleRevenue.t :=
  Sql.sort_by
    (fun a b => Sql.real_leb (VehicleRevenue.revenue b) (VehicleRevenue.revenue a))
    (List.map
       (fun '(k, g) =>
          {| VehicleRevenue.Vehicle_Type := k;
             VehicleRevenue.bookings := Sql.count_star g;
             VehicleRevenue.revenue :=
               Sql.sum (List.map
                 (fun r => if status_is_success r then Booking_Value (v_cols r)
                           else Some (Fin 0)) g) |})
       (Sql.group_by (fun r => Vehicle_Type (v_cols r)) rides)).

(** [_get_database_summary]. *)
Definition _get_database_summary (conn : database) : option DatabaseSummary.t :=
  match frame (query_rides conn (fun rides => [overall_query rides])) with
  | [] => None
  | overall_stats :: _ =>
      Some {| DatabaseSummary.overall := overall_stats;
              DatabaseSummary.vehicle_performance := frame (query_rides conn vehicle_query) |}
  end.

Definition required_tables : list string :=
  ["rides"; "vehicle_summary"; "daily_summary"; "customer_summary"]%string.

Definition in_list (x : string) (l : list string) : bool :=
  bool_decide (x ∈ l).

(** [validate_database_integrity]: an exception of the checks on [rides] is
    caught and recorded, with what was gathered before it. *)
Definition validate_database_integrity (conn : database) : ValidationResults.t :=
  let tables := get_all_tables conn in
  let missing := List.filter (fun t => negb (in_list t tables)) required_tables in
  let tables_ok := match missing with [] => true | _ => false end in
  if in_list "rides" tables then
    match _validate_rides_table conn with
    | None =>
        {| ValidationResults.tables_exist := tables_ok;
           ValidationResults.existing_tables := tables;
           ValidationResults.missing_tables := missing;
           ValidationResults.data_quality_rides := None;
           ValidationResults.summary := None;
           ValidationResults.error := Some "single positional indexer is out-of-bounds"%string |}
    | Some rides_validation =>
        match _get_database_summary conn with
        | None =>
            {| ValidationResults.tables_exist := tables_ok;
               ValidationResults.existing_tables := tables;
               ValidationResults.missing_tables := missing;
               ValidationResults.data_quality_rides := Some rides_validation;
               ValidationResults.summary := None;
               ValidationResults.error :=
                 Some "single positional indexer is out-of-bounds"%string |}
        | Some summary_stats =>
            {| ValidationResults.tables_exist := tables_ok;
               ValidationResults.existing_tables := tables;
               ValidationResults.missing_tables := missing;
               ValidationResults.data_quality_rides := Some rides_validation;
               ValidationResults.summary := Some summary_stats;
               ValidationResults.error := None |}
        end
    end
  else
    {| ValidationResults.tables_exist := tables_ok;
       ValidationResults.existing_tables := tables;
       ValidationResults.missing_tables := missing;
       ValidationResults.data_quality_rides := None;
       ValidationResults.summary := None;
       ValidationResults.error := None |}.

(** *** More business queries *)

Module VehiclePerformance.
Record t : Type := mk {
  Vehicle_Type : option string;
  Total_Bookings : Z;
  Successful_Bookings : Z;
  Success_Rate : option float;
  Total_Revenue : option float;
  Avg_Booking_Value : option float;
  Avg_Distance : option float;
  Avg_Driver_Rating : option float;
  Avg_Customer_Rating : option float
}.
End VehiclePerformance.

(** [CASE WHEN Booking_Status = 'Success' THEN x END] and the same with
    [ELSE 0]. *)
Definition when_success (x : rides_view -> option float) (r : rides_view)
  : option float :=
  if status_is_success r then x r else None.

Definition when_success_else_0 (x : rides_view -> option float) (r : rides_view)
  : option float :=
  if status_is_success r then x r else Some (Fin 0).

(** The row of one vehicle type in [get_vehicle_performance]. *)
Definition vehicle_performance_row (k : option string) (g : list rides_view)
  : VehiclePerformance.t :=
  let successful := Sql.sum_int (fun r => if status_is_success r then 1 else 0) g in
  {| VehiclePerformance.Vehicle_Type := k;
     VehiclePerformance.Total_Bookings := Sql.count_star g;
     VehiclePerformance.Successful_Bookings := successful;
     VehiclePerformance.Success_Rate := SqlExpr.percentage successful (Sql.count_star g);
     VehiclePerformance.Total_Revenue :=
       Sql.round (Sql.sum (List.map (when_success_else_0 (col Booking_Value)) g));
     VehiclePerformance.Avg_Booking_Value :=
       Sql.round (Sql.avg (List.map (when_success (col Booking_Value)) g));
     VehiclePerformance.Avg_Distance :=
       Sql.round (Sql.avg (List.map (when_success (col Ride_Distance)) g));
     VehiclePerformance.Avg_Driver_Rating :=
       Sql.round (Sql.avg (List.map (when_success (col Driver_Ratings)) g));
     VehiclePerformance.Avg_Customer_Rating :=
       Sql.round (Sql.avg (List.map (when_success (col Customer_Rating)) g)) |}.

(** The query of [get_vehicle_performance]; [ORDER BY Total_Revenue DESC]
    as the stable sort. *)
Definition vehicle_performance_query (rides : list rides_view)
  : list VehiclePerformance.t :=
  Sql.sort_by
    (fun a b => Sql.real_leb (VehiclePerformance.Total_Revenue b)
                             (VehiclePerformance.Total_Revenue a))
    (List.map (fun '(k, g) => vehicle_performance_row k g)
       (Sql.group_by (fun r => Vehicle_Type (v_cols r)) rides)).

Definition get_vehicle_performance (conn : database) : list VehiclePerformance.t :=
  frame (query_rides conn vehicle_performance_query).

Module StatusCategory.
Record t : Type := mk {
  Status_Category : string;
  Count : Z;
  Percentage : option float
}.
End StatusCategory.

Module Reason.
Record t : Type := mk {
  Reason : string;
  Count : Z
}.
End Reason.

Module CancellationAnalysis.
Record t : Type := mk {
  overall : list StatusCategory.t;
  customer_reasons : list Reason.t;
  driver_reasons : list Reason.t
}.
End CancellationAnalysis.

(** The [CASE] of the overall cancellation query. *)
Definition status_category (r : rides_view) : string :=
  let status := Booking_Status (v_cols r) in
  if eq_Success status then "Successful"
  else if SqlExpr.like_contains "Customer" status then "Cancelled by Customer"
  else if SqlExpr.like_contains "Driver" status then "Cancelled by Driver"
  else "Other".

Definition overall_cancellation_query (rides : list rides_view) : list StatusCategory.t :=
  Sql.sort_by
    (fun a b => StatusCategory.Count b <=? StatusCategory.Count a)
    (List.map
       (fun '(k, g) =>
          {| StatusCategory.Status_Category := k;
             StatusCategory.Count := Sql.count_star g;
             StatusCategory.Percentage :=
               SqlExpr.percentage (Sql.count_star g) (Sql.count_star rides) |})
       (Sql.group_by status_category rides)).

(** The reasons of the bookings whose status is [LIKE '%word%'], grouped by
    the reason column and shown with 'Not Specified' for NULL. *)
Definition reasons_query (word : string) (reason : columns (option float) -> option string)
    (rides : list rides_view) : list Reason.t :=
  Sql.sort_by
    (fun a b => Reason.Count b <=? Reason.Count a)
    (List.map
       (fun '(k, g) =>
          {| Reason.Reason := SqlExpr.coalesce k "Not Specified";
             Reason.Count := Sql.count_star g |})
       (Sql.group_by (fun r => reason (v_cols r))
          (List.filter
             (fun r => SqlExpr.like_contains word (Booking_Status (v_cols r))) rides))).

Definition get_cancellation_analysis (conn : database) : CancellationAnalysis.t :=
  {| CancellationAnalysis.overall := frame (query_rides conn overall_cancellation_query);
     CancellationAnalysis.customer_reasons :=
       frame (query_rides conn (reasons_query "Customer" Canceled_Rides_by_Customer));
     CancellationAnalysis.driver_reasons :=
       frame (query_rides conn (reasons_query "Driver" Canceled_Rides_by_Driver)) |}.

Module PaymentMethods.
Record t : Type := mk {
  Payment_Method : option string;
  Total_Transactions : Z;
  Total_Revenue : option float;
  Avg_Transaction_Value : option float;
  Usage_Percentage : option float
}.
End PaymentMethods.

Module DailyTrends.
Record t : Type := mk {
  Date : option date;
  Total_Bookings : Z;
  Successful_Bookings : Z;
  Daily_Revenue : option float
}.
End DailyTrends.

Module RevenueAnalysis.
Record t : Type := mk {
  payment_methods : list PaymentMethods.t;
  daily_trends : list DailyTrends.t
}.
End RevenueAnalysis.

Definition has_payment_method (r : rides_view) : bool :=
  negb (SqlExpr.is_null (Payment_Method (v_cols r))).

Definition payment_query (rides : list rides_view) : list PaymentMethods.t :=
  let with_method := Sql.count_star (List.filter has_payment_method rides) in
  Sql.sort_by
    (fun a b => Sql.real_leb (PaymentMethods.Total_Revenue b)
                             (PaymentMethods.Total_Revenue a))
    (List.map
       (fun '(k, g) =>
          {| PaymentMethods.Payment_Method := k;
             PaymentMethods.Total_Transactions := Sql.count_star g;
             PaymentMethods.Total_Revenue :=
               Sql.round (Sql.sum (List.map (col Booking_Value) g));
             PaymentMethods.Avg_Transaction_Value :=
               Sql.round (Sql.avg (List.map (col Booking_Value) g));
             PaymentMethods.Usage_Percentage :=
               SqlExpr.percentage (Sql.count_star g) with_method |})
       (Sql.group_by (fun r => Payment_Method (v_cols r))
          (List.filter (fun r => has_payment_method r && status_is_success r) rides))).

Definition daily_query (rides : list rides_view) : list DailyTrends.t :=
  Sql.sort_by
    (fun a b => Sql.date_key_leb (DailyTrends.Date a) (DailyTrends.Date b))
    (List.map
       (fun '(k, g) =>
          {| DailyTrends.Date := k;
             DailyTrends.Total_Bookings := Sql.count_star g;
             DailyTrends.Successful_Bookings :=
               Sql.sum_int (fun r => if status_is_success r then 1 else 0) g;
             DailyTrends.Daily_Revenue :=
               Sql.round (Sql.sum (List.map (when_success_else_0 (col Booking_Value)) g)) |})
       (Sql.group_by (fun r => Date (v_cols r)) rides)).

Definition get_revenue_analysis (conn : database) : RevenueAnalysis.t :=
  {| RevenueAnalysis.payment_methods := frame (query_rides conn payment_query);
     RevenueAnalysis.daily_trends := frame (query_rides conn daily_query) |}.

(** ** More of run_project.py *)

Module SqlReport.
Record t : Type := mk {
  total : Z;
  successful : Z;
  revenue : option float;
  top_vehicle : option string * option float;
  avg_driver_rating : option float;
  avg_customer_rating : option float
}.
End SqlReport.

Module QualityReport.
Record t : Type := mk {
  table_counts : list (string * Z);
  total_records : Z;
  missing_booking_ids : Z;
  negative_values : Z;
  success_rate : option float
}.
End QualityReport.

Module Project.

(** The rows [WHERE Booking_Status = 'Success'] leaves. *)
Definition successes (rides : list rides_view) : list rides_view :=
  List.filter status_is_success rides.

(** "Top Vehicle by Revenue": the revenue of every vehicle type among the
    successes, the largest first, [LIMIT 1]. *)
Definition top_vehicle_query (rides : list rides_view)
  : list (option string * option float) :=
  Sql.limit 1
    (Sql.sort_by
       (fun a b => Sql.real_leb (snd b) (snd a))
       (List.map
          (fun '(k, g) => (k, Sql.round (Sql.sum (List.map (col Booking_Value) g))))
          (Sql.group_by (fun r => Vehicle_Type (v_cols r)) (successes rides)))).

(** [execute_sql_queries]: what the five queries print, or [None] when the
    function returns [False] because one of them, or [.iloc[0]] on its
    result, raises. *)
Definition execute_sql_queries (conn : database) : option SqlReport.t :=
  match select_rides conn with
  | None => None
  | Some rides =>
      match top_vehicle_query rides with
      | [] => None
      | top :: _ =>
          Some {| SqlReport.total := Sql.count_star rides;
                  SqlReport.successful := Sql.count_star (successes rides);
                  SqlReport.revenue :=
                    Sql.round (Sql.sum (List.map (col Booking_Value) (successes rides)));
                  SqlReport.top_vehicle := top;
                  SqlReport.avg_driver_rating :=
                    Sql.round (Sql.avg (List.map (col Driver_Ratings) (successes rides)));
                  SqlReport.avg_customer_rating :=
                    Sql.round (Sql.avg (List.map (col Customer_Rating) (successes rides))) |}
      end
  end.

(** [ROUND(AVG(CASE WHEN Booking_Status = 'Success' THEN 1 ELSE 0 END) * 100, 2)]. *)
Definition success_rate (rides : list rides_view) : option float :=
  Sql.round
    (option_map
       (fun x => match x with
                 | Fin q => Fin (Qred (q * 100))
                 | inf => inf
                 end)
       (Sql.avg (List.map (fun r => Some (of_Z (if status_is_success r then 1 else 0)))
                   rides))).







Section Main.

Variable parse_float : string -> option float.


End Main.

End Project.


(** The text columns of a frame. *)
Definition text_columns : list (columns (option float) -> option string) :=
  [ Booking_ID; Customer_ID; Vehicle_Type; Pickup_Location; Drop_Location;
    Booking_Status; Canceled_Rides_by_Customer; Canceled_Rides_by_Driver;
    Incomplete_Rides; Incomplete_Rides_Reason; Payment_Method; Vehicle_Images ].

(** A processor that has loaded a sheet and cleaned it. *)
Definition cleaned_processor (parse_float : string -> option float)
    (sheet : list raw_row) : OlaDataProcessor.self :=
  snd (OlaDataProcessor.clean_data_method parse_float
         (snd (OlaDataProcessor.load_data (Workbook (Some sheet)) OlaDataProcessor.init))).

(** The total of a column over the successes of a group, as [SUM] with
    [ELSE 0] gives it: 0 when the group has no success with a value, and
    NULL only when every row of the group is a success without one. *)
Definition total_of_successes (x : rides_view -> option float) (g : list rides_view)
  : option float :=
  if List.forallb (fun r => (v_Is_Successful r =? 1) && isna (x r)) g
  then None
  else Sql.total (Sql.non_null (List.map x (successful_rows g))).

(** The five null counts of a null check. *)
Definition null_counts (nulls : NullValues.t) : list (option Z) :=
  [ NullValues.null_booking_ids nulls; NullValues.null_customer_ids nulls;
    NullValues.null_vehicle_types nulls; NullValues.null_booking_status nulls;
    NullValues.null_dates nulls ].

(** A database whose [rides] table has no row. *)
Definition empty_rides : database := to_sql_replace "rides" (RidesT []) ∅.

(** * Properties *)

Lemma Qle_bool_false (a b : Q) : Qle_bool a b = false <-> (b < a)%Q.
Proof.
  split; intros H.
  - apply Qnot_le_lt. intros Hle. apply Qle_bool_iff in Hle. congruence.
  - destruct (Qle_bool a b) eqn:E; [|reflexivity].
    apply Qle_bool_iff in E. exfalso. exact (Qlt_not_le _ _ H E).
Qed.

Lemma lt0_negative (c : option float) : lt0 c = true <-> negative c.
Proof.
  destruct c as [[q| |]|]; cbn; try (split; (discriminate || tauto)).
  unfold ltb, leb. rewrite negb_true_iff. apply Qle_bool_false.
Qed.

Lemma gt0_positive (c : option float) : gt0 c = true <-> positive c.
Proof.
  destruct c as [[q| |]|]; cbn; try (split; (discriminate || tauto)).
  unfold ltb, leb. rewrite negb_true_iff. apply Qle_bool_false.
Qed.

Lemma ge0_or_isna (c : option float) :
  ge0 c || isna c = true <-> absent_or_nonnegative c.
Proof.
  destruct c as [[q| |]|]; cbn; try (split; (discriminate || tauto)).
  rewrite orb_false_r. apply Qle_bool_iff.
Qed.

Lemma ge0_or_isna_lt0 (c : option float) : ge0 c || isna c = negb (lt0 c).
Proof.
  destruct c as [[q| |]|]; cbn; try reflexivity.
  unfold ltb, leb. now rewrite negb_involutive, orb_false_r.
Qed.

(** ** Cleaning, row by row *)

Section CleaningFacts.

Variable parse_float : string -> option float.

Lemma fillna0_lt0 (c : option float) : lt0 (fillna0 c) = lt0 c.
Proof. destruct c as [[q| |]|]; reflexivity. Qed.

Lemma clean_row_Booking_Value (r : raw_row) :
  Booking_Value (cols (clean_row parse_float r)) = numeric parse_float (Booking_Value r).
Proof. reflexivity. Qed.

Lemma clean_row_Ride_Distance (r : raw_row) :
  Ride_Distance (cols (clean_row parse_float r)) =
  if eq_Success (replace_null (Booking_Status r))
  then numeric parse_float (Ride_Distance r)
  else fillna0 (numeric parse_float (Ride_Distance r)).
Proof.
  cbn. now destruct (eq_Success (replace_null (Booking_Status r))).
Qed.

Lemma clean_row_Booking_Status (r : raw_row) :
  Booking_Status (cols (clean_row parse_float r)) = replace_null (Booking_Status r).
Proof. reflexivity. Qed.

Lemma ride_distance_lt0 (r : raw_row) :
  lt0 (Ride_Distance (cols (clean_row parse_float r))) = lt0 (numeric parse_float (Ride_Distance r)).
Proof.
  rewrite clean_row_Ride_Distance.
  destruct (eq_Success _); [reflexivity | apply fillna0_lt0].
Qed.

Lemma filter_filter {A : Type} (f g : A -> bool) (l : list A) :
  List.filter g (List.filter f l) = List.filter (fun x => f x && g x) l.
Proof.
  induction l as [|x l IH]; cbn; [reflexivity|].
  destruct (f x); cbn; [destruct (g x)|]; now rewrite IH.
Qed.

Lemma filter_map_comm {A B : Type} (f : A -> B) (p : B -> bool) (l : list A) :
  List.filter p (List.map f l) = List.map f (List.filter (fun x => p (f x)) l).
Proof.
  induction l as [|x l IH]; cbn; [reflexivity|].
  destruct (p (f x)); cbn; now rewrite IH.
Qed.

(** [clean_data] keeps, in order, the cleaned image of every row that is
    not [dropped]. *)
Lemma clean_data_filter (raw : list raw_row) :
  clean_data parse_float raw =
  List.map (clean_row parse_float) (List.filter (fun r => negb (dropped parse_float r)) raw).
Proof.
  unfold clean_data. rewrite filter_filter, filter_map_comm.
  f_equal. apply List.filter_ext. intros r.
  unfold booking_value_ok, ride_distance_ok, dropped.
  rewrite !ge0_or_isna_lt0, ride_distance_lt0, clean_row_Booking_Value.
  now rewrite negb_orb.
Qed.

Lemma in_clean_data (raw : list raw_row) (r : row) :
  In r (clean_data parse_float raw) <->
  exists r0, In r0 raw /\ dropped parse_float r0 = false /\ r = clean_row parse_float r0.
Proof.
  rewrite clean_data_filter, List.in_map_iff. split.
  - intros (r0 & <- & Hin). apply List.filter_In in Hin as [Hin Hd].
    exists r0. repeat split; [assumption|]. now apply negb_true_iff.
  - intros (r0 & Hin & Hd & ->). exists r0. split; [reflexivity|].
    apply List.filter_In. split; [assumption|]. now rewrite Hd.
Qed.

Lemma astype_int_bit (b : bool) : astype_int b = 0 \/ astype_int b = 1.
Proof. destruct b; [right | left]; reflexivity. Qed.

(** C10. Every row of the cleaned frame has its three flags Is_Successful,
    Is_Customer_Cancel and Is_Driver_Cancel equal to 0 or to 1, and a row
    whose booking status is missing has all three equal to 0. *)
Theorem clean_data_flags_are_bits (raw : list raw_row) (r : row) :
  In r (clean_data parse_float raw) ->
  (Is_Successful r = 0 \/ Is_Successful r = 1)
  /\ (Is_Customer_Cancel r = 0 \/ Is_Customer_Cancel r = 1)
  /\ (Is_Driver_Cancel r = 0 \/ Is_Driver_Cancel r = 1)
  /\ (Booking_Status (cols r) = None ->
      Is_Successful r = 0 /\ Is_Customer_Cancel r = 0 /\ Is_Driver_Cancel r = 0).
Proof.
  intros Hin. apply in_clean_data in Hin as (r0 & _ & _ & ->).
  repeat split; try apply astype_int_bit;
    rewrite clean_row_Booking_Status in H; cbn; now rewrite H.
Qed.

(** C6. Cleaning removes exactly the rows whose booking value or ride
    distance is a number below zero, rows with a missing value stay; every
    row that is left has both values missing or at least 0; and the rows
    left and the rows removed add up to the rows of the input. *)
Theorem clean_data_drops_negative_rows (raw : list raw_row) :
  clean_data parse_float raw
  = List.map (clean_row parse_float) (List.filter (fun r => negb (dropped parse_float r)) raw)
  /\ (forall r0 : raw_row,
        dropped parse_float r0 = true <->
        negative (numeric parse_float (Booking_Value r0))
        \/ negative (numeric parse_float (Ride_Distance r0)))
  /\ Forall (fun r => absent_or_nonnegative (Booking_Value (cols r))
                     /\ absent_or_nonnegative (Ride_Distance (cols r)))
       (clean_data parse_float raw)
  /\ (List.length (clean_data parse_float raw)
      + List.length (List.filter (dropped parse_float) raw)
      = List.length raw)%nat
  /\ removed_count parse_float raw
     = Z.of_nat (List.length (List.filter (dropped parse_float) raw)).
Proof.
  assert (Hlen : (List.length (clean_data parse_float raw)
                  + List.length (List.filter (dropped parse_float) raw)
                  = List.length raw)%nat).
  { rewrite clean_data_filter, List.length_map.
    induction raw as [|r0 raw IH]; cbn; [reflexivity|].
    destruct (dropped parse_float r0); cbn; lia. }
  split; [apply clean_data_filter|].
  split.
  { intros r0. unfold dropped. rewrite orb_true_iff, !lt0_negative. tauto. }
  split.
  { apply List.Forall_forall. intros r Hin.
    apply in_clean_data in Hin as (r0 & _ & Hd & ->).
    unfold dropped in Hd. apply orb_false_iff in Hd as [Hv Hr].
    rewrite <- ride_distance_lt0 in Hr. rewrite <- clean_row_Booking_Value in Hv.
    split; apply ge0_or_isna; rewrite ge0_or_isna_lt0; now apply negb_true_iff. }
  split; [exact Hlen|].
  unfold removed_count. rewrite List.length_map. lia.
Qed.

(** The guard of [clean_data]: the revenue per kilometre of a cleaned row
    is missing unless the distance is above 0 and the row is a success, and
    then it is the quotient of booking value and distance. *)
Lemma clean_data_revenue_guard (raw : list raw_row) (r : row) :
  In r (clean_data parse_float raw) ->
  (~ positive (Ride_Distance (cols r)) \/ Is_Successful r <> 1 ->
   Revenue_Per_KM r = None)
  /\ (positive (Ride_Distance (cols r)) /\ Is_Successful r = 1 ->
      Revenue_Per_KM r
      = Float.div (Booking_Value (cols r)) (Ride_Distance (cols r))).
Proof.
  intros Hin. apply in_clean_data in Hin as (r0 & _ & _ & ->).
  rewrite clean_row_Ride_Distance. cbn.
  destruct (eq_Success (replace_null (Booking_Status r0))) eqn:Es; cbn.
  - split.
    + intros [Hd | Hs]; [|congruence].
      destruct (gt0 _) eqn:Eg; [|reflexivity].
      apply gt0_positive in Eg. contradiction.
    + intros [Hd _]. apply gt0_positive in Hd. unfold numeric in Hd.
      now rewrite Hd.
  - rewrite andb_false_r. split; [reflexivity | intros [_ Hs]; discriminate].
Qed.

(** *** A second pass *)









End CleaningFacts.

Lemma clean_data_flags_are_bits_witness :
  let r0 := booking "B3" "C3" "Auto" "null" (num 50) NaN in
  let r := clean_row no_parse r0 in
  In r (clean_data no_parse [r0])
  /\ (Is_Successful r = 0 \/ Is_Successful r = 1)
  /\ (Is_Customer_Cancel r = 0 \/ Is_Customer_Cancel r = 1)
  /\ (Is_Driver_Cancel r = 0 \/ Is_Driver_Cancel r = 1)
  /\ (Booking_Status (cols r) = None ->
      Is_Successful r = 0 /\ Is_Customer_Cancel r = 0 /\ Is_Driver_Cancel r = 0).
Proof.
  cbv zeta.
  assert (Hin : In (clean_row no_parse (booking "B3" "C3" "Auto" "null" (num 50) NaN))
                   (clean_data no_parse [booking "B3" "C3" "Auto" "null" (num 50) NaN])).
  { vm_compute. left. reflexivity. }
  split; [exact Hin|].
  exact (clean_data_flags_are_bits no_parse _ _ Hin).
Defined.

Example contains_Customer :
  str_contains "Customer" (Some "Cancelled by Customer"%string) = true
  /\ str_contains "Driver" (Some "Cancelled by Customer"%string) = false
  /\ str_contains "Customer" (Some "cancelled by customer"%string) = false
  /\ str_contains "Customer" None = false.
Proof. repeat split; reflexivity. Qed.

Example first_of_July_2024 : day_name (mkDate 2024 7 1) = "Monday"%string.
Proof. reflexivity. Qed.

(** Scenarios A, B and C of the specification. *)
Example scenario_A :
  List.map (fun r => (Is_Successful r, Revenue_Per_KM r))
    (clean_data no_parse [booking "B1" "C1" "Auto" "Success" (num 100) (num 10)])
  = [(1, Some (Fin 10))].
Proof. vm_compute. reflexivity. Qed.

Example scenario_B :
  clean_data no_parse [booking "B1" "C1" "Auto" "Success" (num (-5)) (num 10)] = []
  /\ removed_count no_parse [booking "B1" "C1" "Auto" "Success" (num (-5)) (num 10)] = 1.
Proof. vm_compute. split; reflexivity. Qed.

Example scenario_C :
  List.map (fun r => (Ride_Distance (cols r), Is_Customer_Cancel r, Is_Successful r))
    (clean_data no_parse [booking "B1" "C1" "Auto" "Cancelled by Customer" (num 100) NaN])
  = [(Some (Fin 0), 1, 0)].
Proof. vm_compute. reflexivity. Qed.

(** [process_data] stores the quotient whatever the status and the
    distance of the row. *)
Lemma process_row_revenue (parse_float : string -> option float) (r : raw_row) :
  p_Revenue_Per_KM (process_row parse_float r)
  = Float.div (numeric parse_float (Booking_Value r))
              (numeric parse_float (Ride_Distance r)).
Proof. reflexivity. Qed.

(** C1. [process_data] of run_project.py stores the quotient of booking
    value and distance for every row: a cancelled booking of value 100 over
    distance 5 gets 20 and a success over distance 0 gets infinity, where the
    guard of [clean_data] leaves both missing.  No division raises. *)
Theorem process_data_revenue_unguarded :
  let sheet := [cancelled_with_distance; success_without_distance] in
  let run := RunProject.process_data no_parse (Workbook (Some sheet)) fresh in
  fst run = true
  /\ db (snd run) !! "rides"%string
     = Some (ProjectRidesT (List.map (process_row no_parse) sheet))
  /\ List.map (fun r => (p_Is_Successful r, Ride_Distance (p_cols r), p_Revenue_Per_KM r))
       (List.map (process_row no_parse) sheet)
     = [(0, Some (Fin 5), Some (Fin 20)); (1, Some (Fin 0), Some PInf)]
  /\ List.map (fun r => (Is_Successful r, Ride_Distance (cols r), Revenue_Per_KM r))
       (clean_data no_parse sheet)
     = [(0, Some (Fin 5), None); (1, Some (Fin 0), None)].
Proof. cbv zeta. repeat split; vm_compute; reflexivity. Qed.

(** ** Grouping *)

Section GroupingFacts.

Context {R K : Type} `{EqDecision K}.

Variable key : R -> K.

Lemma rows_in_cons (k : K) (g : list R) (gs : list (K * list R)) :
  Sql.rows_in ((k, g) :: gs) = (List.length g + Sql.rows_in gs)%nat.
Proof. reflexivity. Qed.

Lemma rows_in_insert_group (k : K) (r : R) (gs : list (K * list R)) :
  Sql.rows_in (Sql.insert_group k r gs) = S (Sql.rows_in gs).
Proof.
  induction gs as [|[k' g] gs IH]; [reflexivity|].
  cbn [Sql.insert_group]. destruct (bool_decide (k = k')).
  - rewrite !rows_in_cons, List.length_app. cbn [List.length]. lia.
  - rewrite !rows_in_cons, IH. lia.
Qed.

Lemma rows_in_fold (rows : list R) (gs : list (K * list R)) :
  Sql.rows_in (List.fold_left (fun gs r => Sql.insert_group (key r) r gs) rows gs)
  = (Sql.rows_in gs + List.length rows)%nat.
Proof.
  revert gs. induction rows as [|r rows IH]; intros gs; cbn [List.fold_left List.length].
  - lia.
  - rewrite IH, rows_in_insert_group. lia.
Qed.

(** Grouping neither loses nor duplicates a row. *)
Lemma rows_in_group_by (rows : list R) :
  Sql.rows_in (Sql.group_by key rows) = List.length rows.
Proof. unfold Sql.group_by. now rewrite rows_in_fold. Qed.

Lemma insert_group_keys (k : K) (r : R) (gs : list (K * list R)) (k' : K) :
  In k' (List.map fst (Sql.insert_group k r gs))
  <-> k' = k \/ In k' (List.map fst gs).
Proof.
  induction gs as [|[k0 g] gs IH]; cbn [Sql.insert_group List.map fst In].
  - intuition.
  - destruct (bool_decide_reflect (k = k0)) as [->|Hne]; cbn [List.map fst In].
    + intuition.
    + rewrite IH. intuition.
Qed.

Lemma insert_group_NoDup (k : K) (r : R) (gs : list (K * list R)) :
  List.NoDup (List.map fst gs) -> List.NoDup (List.map fst (Sql.insert_group k r gs)).
Proof.
  induction gs as [|[k0 g] gs IH]; cbn [Sql.insert_group List.map fst]; intros Hnd.
  - constructor; [intros [] | constructor].
  - destruct (bool_decide_reflect (k = k0)) as [->|Hne]; cbn [List.map fst];
      [exact Hnd|].
    apply List.NoDup_cons_iff in Hnd as [Hnin Hnd].
    apply List.NoDup_cons_iff. split; [|now apply IH].
    rewrite insert_group_keys. intros [->|Hin]; [now apply Hne | contradiction].
Qed.

(** Where a group of [insert_group k r gs] comes from: it is a group of
    another key, or the group of [k] with [r] added at its end, or the new
    group of [r] alone. *)
Lemma insert_group_In (k : K) (r : R) (gs : list (K * list R)) (k' : K) (g' : list R) :
  List.NoDup (List.map fst gs) ->
  In (k', g') (Sql.insert_group k r gs) ->
  (k' <> k /\ In (k', g') gs)
  \/ (k' = k /\ exists g, In (k, g) gs /\ g' = g ++ [r])
  \/ (k' = k /\ g' = [r] /\ ~ In k (List.map fst gs)).
Proof.
  induction gs as [|[k0 g] gs IH]; cbn [Sql.insert_group List.map fst In]; intros Hnd.
  - intros [Heq|[]]. injection Heq as <- <-. right. right. intuition.
  - apply List.NoDup_cons_iff in Hnd as [Hnin Hnd].
    destruct (bool_decide_reflect (k = k0)) as [->|Hne]; cbn [In].
    + intros [Heq|Hin].
      * injection Heq as <- <-. right. left. split; [reflexivity|].
        exists g. split; [now left | reflexivity].
      * left. split; [|now right].
        intros ->. apply Hnin. apply List.in_map_iff. now exists (k0, g').
    + intros [Heq|Hin].
      * injection Heq as <- <-. left. split; [congruence | now left].
      * destruct (IH Hnd Hin) as [(Hne' & Hin')|[(-> & g0 & Hin' & ->)|(-> & -> & Hnin')]].
        -- left. split; [assumption | now right].
        -- right. left. split; [reflexivity|].
           exists g0. split; [now right | reflexivity].
        -- right. right. repeat split. intros [Heq|Hin']; [congruence | contradiction].
Qed.

Lemma filter_none {A : Type} (f : A -> bool) (l : list A) :
  (forall x, In x l -> f x = false) -> List.filter f l = [].
Proof.
  induction l as [|x l IH]; intros Hall; cbn; [reflexivity|].
  rewrite (Hall x) by now left. apply IH. intros y Hy. apply Hall. now right.
Qed.

Lemma groups_of_insert (seen : list R) (r : R) (gs : list (K * list R)) :
  Sql.groups_of key seen gs ->
  Sql.groups_of key (seen ++ [r]) (Sql.insert_group (key r) r gs).
Proof.
  intros (Hnd & Hgroups & Hkeys). split; [now apply insert_group_NoDup|]. split.
  - intros k g Hin. rewrite List.filter_app. cbn [List.filter].
    destruct (insert_group_In _ _ _ _ _ Hnd Hin)
      as [(Hne & Hin')|[(-> & g0 & Hin' & ->)|(-> & -> & Hnin)]].
    + destruct (Hgroups _ _ Hin') as [Hnil ->].
      rewrite bool_decide_eq_false_2 by congruence.
      now rewrite List.app_nil_r.
    + destruct (Hgroups _ _ Hin') as [Hnil <-].
      rewrite bool_decide_eq_true_2 by reflexivity.
      split; [|reflexivity]. now destruct g0.
    + rewrite bool_decide_eq_true_2 by reflexivity.
      split; [discriminate|].
      assert (Hempty : List.filter (fun r' => bool_decide (key r' = key r)) seen = []).
      { apply filter_none. intros r' Hin'.
        apply bool_decide_eq_false_2. intros Heq. apply Hnin.
        rewrite <- Heq. now apply Hkeys. }
      now rewrite Hempty.
  - intros r' Hin. apply insert_group_keys. apply List.in_app_iff in Hin as [Hin|[<-|[]]].
    + right. now apply Hkeys.
    + now left.
Qed.

Lemma groups_of_fold (rows seen : list R) (gs : list (K * list R)) :
  Sql.groups_of key seen gs ->
  Sql.groups_of key (seen ++ rows)
    (List.fold_left (fun gs r => Sql.insert_group (key r) r gs) rows gs).
Proof.
  revert seen gs. induction rows as [|r rows IH]; intros seen gs Hgs; cbn [List.fold_left].
  - now rewrite List.app_nil_r.
  - replace (seen ++ r :: rows) with ((seen ++ [r]) ++ rows)
      by now rewrite <- List.app_assoc.
    apply IH. now apply groups_of_insert.
Qed.

(** [group_by] returns the groups of its rows. *)
Lemma group_by_groups_of (rows : list R) :
  Sql.groups_of key rows (Sql.group_by key rows).
Proof.
  apply (groups_of_fold rows [] []). split; [constructor|]. split.
  - intros k g [].
  - intros r [].
Qed.

Lemma group_by_In (rows : list R) (k : K) (g : list R) :
  In (k, g) (Sql.group_by key rows) ->
  g <> [] /\ g = List.filter (fun r => bool_decide (key r = k)) rows.
Proof. intros Hin. now apply (group_by_groups_of rows). Qed.

Lemma group_by_Forall (P : R -> Prop) (rows : list R) :
  Forall P rows ->
  Forall (fun kg => Forall P (snd kg)) (Sql.group_by key rows).
Proof.
  intros Hall. apply List.Forall_forall. intros [k g] Hin.
  apply group_by_In in Hin as [_ ->]. cbn [snd].
  apply List.Forall_forall. intros r Hr. apply List.filter_In in Hr as [Hr _].
  revert r Hr. now apply List.Forall_forall.
Qed.

End GroupingFacts.

Lemma sum_int_bits {R : Type} (f : R -> Z) (g : list R) :
  Forall (fun r => f r = 0 \/ f r = 1) g ->
  0 <= Sql.sum_int f g <= Sql.count_star g.
Proof.
  unfold Sql.sum_int, Sql.count_star.
  induction 1 as [|r g Hr _ IH]; cbn [List.map List.fold_right List.length]; lia.
Qed.

Lemma clean_data_views_bits (parse_float : string -> option float) (raw : list raw_row) :
  Forall (fun r => v_Is_Successful r = 0 \/ v_Is_Successful r = 1)
    (List.map view_of_row (clean_data parse_float raw)).
Proof.
  apply List.Forall_forall. intros v Hin.
  apply List.in_map_iff in Hin as (r & <- & Hin).
  apply in_clean_data in Hin as (r0 & _ & _ & ->). apply astype_int_bit.
Qed.

(** C9. In the vehicle summary of a cleaned frame every vehicle type has
    Successful_Bookings at most Total_Bookings, and the Total_Bookings of
    all vehicle types add up to the number of cleaned rows. *)
Theorem vehicle_summary_consistent
    (parse_float : string -> option float) (raw : list raw_row) :
  let cleaned := clean_data parse_float raw in
  let summary := DataProcessorSql.vehicle_summary_query (List.map view_of_row cleaned) in
  Forall (fun v => VehicleSummary.Successful_Bookings v <= VehicleSummary.Total_Bookings v)
    summary
  /\ List.fold_right Z.add 0 (List.map VehicleSummary.Total_Bookings summary)
     = Z.of_nat (List.length cleaned).
Proof.
  cbv zeta. unfold DataProcessorSql.vehicle_summary_query.
  set (rides := List.map view_of_row (clean_data parse_float raw)).
  set (groups := Sql.group_by (fun r => Vehicle_Type (v_cols r)) rides).
  split.
  - apply List.Forall_map.
    pose proof (group_by_Forall (fun r => Vehicle_Type (v_cols r)) _ rides
                  (clean_data_views_bits parse_float raw)) as Hbits.
    fold groups in Hbits.
    eapply List.Forall_impl; [|exact Hbits].
    intros [k g] Hg. cbn. now apply sum_int_bits.
  - transitivity (Z.of_nat (Sql.rows_in groups)).
    + unfold Sql.rows_in, Sql.count_star. generalize groups. clear.
      intros gs. induction gs as [|[k g] gs IH]; [reflexivity|].
      cbn [List.map List.fold_right List.list_sum snd VehicleSummary.Total_Bookings].
      rewrite IH, Nat2Z.inj_add. reflexivity.
    + unfold groups. rewrite rows_in_group_by. unfold rides.
      now rewrite List.length_map.
Qed.


(** ** The summary tables *)

(** C3. Over one vehicle type with a success (value 100, distance 10) and a
    cancelled booking (value 300, distance 4), [Avg_Booking_Value] of
    run_project.py is 200, the average over both rows, where the average
    over the successful row is 100; its other aggregates are those of the
    successful row.  In src/data_processor.py every aggregate ranges over
    both rows: average value 200, revenue 400, average distance 7, total
    distance 14.  Total_Bookings is 2 in both. *)
Theorem vehicle_summary_not_successful_only :
  let project_rides :=
    List.map view_of_project_row (List.map (process_row no_parse) mixed_sheet) in
  let rides := List.map view_of_row (clean_data no_parse mixed_sheet) in
  ProjectSql.vehicle_summary_query project_rides
  = [ {| VehicleSummary.Vehicle_Type := Some "Auto"%string;
         VehicleSummary.Total_Bookings := 2;
         VehicleSummary.Successful_Bookings := 1;
         VehicleSummary.Avg_Booking_Value := Some (Fin 200);
         VehicleSummary.Total_Revenue := Some (Fin 100);
         VehicleSummary.Avg_Distance := Some (Fin 10);
         VehicleSummary.Total_Distance := Some (Fin 10);
         VehicleSummary.Avg_Driver_Rating := None;
         VehicleSummary.Avg_Customer_Rating := None |} ]
  /\ DataProcessorSql.vehicle_summary_query rides
     = [ {| VehicleSummary.Vehicle_Type := Some "Auto"%string;
            VehicleSummary.Total_Bookings := 2;
            VehicleSummary.Successful_Bookings := 1;
            VehicleSummary.Avg_Booking_Value := Some (Fin 200);
            VehicleSummary.Total_Revenue := Some (Fin 400);
            VehicleSummary.Avg_Distance := Some (Fin 7);
            VehicleSummary.Total_Distance := Some (Fin 14);
            VehicleSummary.Avg_Driver_Rating := None;
            VehicleSummary.Avg_Customer_Rating := None |} ]
  /\ Sql.avg (List.map (col Booking_Value) (successful_rows rides)) = Some (Fin 100)
  /\ Sql.sum (List.map (col Booking_Value) (successful_rows rides)) = Some (Fin 100)
  /\ Sql.avg (List.map (col Ride_Distance) (successful_rows rides)) = Some (Fin 10)
  /\ Sql.sum (List.map (col Ride_Distance) (successful_rows rides)) = Some (Fin 10).
Proof. cbv zeta. repeat split; vm_compute; reflexivity. Qed.

(** ** Persisting *)

(** A summary table that exists is left as it is by [create_database],
    whatever the cleaned frame. *)
Lemma create_table_keeps (name : string) (select : list rides_view -> table)
    (conn conn' : database) (other : string) (t : table) :
  create_table_if_not_exists_as name select conn = Some conn' ->
  conn !! other = Some t -> conn' !! other = Some t.
Proof.
  unfold create_table_if_not_exists_as. intros Hrun Hlook.
  destruct (conn !! name) eqn:En; [congruence|].
  destruct (select_rides conn); [|discriminate].
  injection Hrun as <-. rewrite lookup_insert_ne; [assumption|]. congruence.
Qed.

Lemma create_summary_tables_keep (conn conn' : database) (other : string) (t : table) :
  OlaDataProcessor._create_summary_tables conn = Some conn' ->
  conn !! other = Some t -> conn' !! other = Some t.
Proof.
  unfold OlaDataProcessor._create_summary_tables, and_then. intros Hrun Hlook.
  destruct (create_table_if_not_exists_as "vehicle_summary" _ conn) as [c1|] eqn:E1;
    [|discriminate].
  destruct (create_table_if_not_exists_as "daily_summary" _ c1) as [c2|] eqn:E2;
    [|discriminate].
  eauto using create_table_keeps.
Qed.

Lemma summary_table_survives (s : OlaDataProcessor.self) (conn : database)
    (name : string) (t : table) :
  name <> "rides"%string ->
  conn !! name = Some t ->
  snd (OlaDataProcessor.create_database s conn) !! name = Some t.
Proof.
  intros Hname Hlook. unfold OlaDataProcessor.create_database.
  destruct (OlaDataProcessor.self_clean_data s) as [cleaned|]; [|exact Hlook].
  assert (Hlook1 : to_sql_replace "rides" (RidesT cleaned) conn !! name = Some t).
  { unfold to_sql_replace. rewrite lookup_insert_ne; [assumption|]. congruence. }
  destruct (OlaDataProcessor._create_summary_tables _) as [conn2|] eqn:E; cbn [snd].
  - eauto using create_summary_tables_keep.
  - exact Hlook1.
Qed.

(** On a database without summary tables [create_database] succeeds and
    stores the three summaries of the frame it writes to [rides]. *)
Lemma create_database_first_run (s : OlaDataProcessor.self) (cleaned : list row)
    (conn : database) :
  OlaDataProcessor.self_clean_data s = Some cleaned ->
  conn !! "vehicle_summary"%string = None ->
  conn !! "daily_summary"%string = None ->
  conn !! "customer_summary"%string = None ->
  let rides := List.map view_of_row cleaned in
  OlaDataProcessor.create_database s conn
  = (true,
     <["customer_summary"%string :=
         CustomerT (DataProcessorSql.customer_summary_query rides)]>
       (<["daily_summary"%string :=
            DailyT (DataProcessorSql.daily_summary_query rides)]>
          (<["vehicle_summary"%string :=
               VehicleT (DataProcessorSql.vehicle_summary_query rides)]>
             (<["rides"%string := RidesT cleaned]> conn)))).
Proof.
  intros Hs Hv Hd Hc. cbv zeta.
  unfold OlaDataProcessor.create_database. rewrite Hs.
  unfold OlaDataProcessor._create_summary_tables, to_sql_replace, and_then,
    create_table_if_not_exists_as, select_rides.
  repeat (rewrite ?lookup_insert_eq; rewrite ?lookup_insert_ne by discriminate;
          rewrite ?Hv, ?Hd, ?Hc).
  reflexivity.
Qed.

(** C4. After a run over an Auto booking and a second run over a Bike
    booking, [rides] holds the Bike booking alone, and the three summary
    tables are those of the first run: their only rows are for Auto, for
    customer C1.  The second run on an empty database writes the Bike
    summaries. *)
Theorem summary_tables_stale_after_second_run :
  let cleaned1 := clean_data no_parse first_sheet in
  let cleaned2 := clean_data no_parse second_sheet in
  let rides1 := List.map view_of_row cleaned1 in
  let rides2 := List.map view_of_row cleaned2 in
  after_second_run !! "rides"%string = Some (RidesT cleaned2)
  /\ after_second_run !! "vehicle_summary"%string
     = Some (VehicleT (DataProcessorSql.vehicle_summary_query rides1))
  /\ after_second_run !! "daily_summary"%string
     = Some (DailyT (DataProcessorSql.daily_summary_query rides1))
  /\ after_second_run !! "customer_summary"%string
     = Some (CustomerT (DataProcessorSql.customer_summary_query rides1))
  /\ List.map VehicleSummary.Vehicle_Type (DataProcessorSql.vehicle_summary_query rides1)
     = [Some "Auto"%string]
  /\ List.map VehicleSummary.Vehicle_Type (DataProcessorSql.vehicle_summary_query rides2)
     = [Some "Bike"%string]
  /\ snd (OlaDataProcessor.create_database (processor_for second_sheet) ∅)
       !! "vehicle_summary"%string
     = Some (VehicleT (DataProcessorSql.vehicle_summary_query rides2)).
Proof. cbv zeta. repeat split; vm_compute; reflexivity. Qed.

(** ** Loading *)

Lemma load_data_fails_iff (src : excel_file) (s : OlaDataProcessor.self) :
  fst (OlaDataProcessor.load_data src s) = None <-> read_excel src = None.
Proof.
  unfold OlaDataProcessor.load_data.
  destruct (read_excel src); cbn; split; congruence.
Qed.

(** C5, as the code has it.  When the file is missing or unreadable, or has
    no 'July' sheet, loading fails: [load_data] returns nothing and leaves the
    processor as it was, after which [clean_data], [save_cleaned_data] and
    [create_database] refuse to work; [process_data] returns false.  The CSV
    and the database are then what they were before the run. *)
Theorem load_failure_writes_nothing
    (parse_float : string -> option float) (src : excel_file) (w : world) :
  src = Missing \/ src = Unreadable \/ src = Workbook None ->
  let s := snd (OlaDataProcessor.load_data src OlaDataProcessor.init) in
  fst (OlaDataProcessor.load_data src OlaDataProcessor.init) = None
  /\ s = OlaDataProcessor.init
  /\ OlaDataProcessor.clean_data_method parse_float s = (None, s)
  /\ OlaDataProcessor.save_cleaned_data s w = (false, w)
  /\ OlaDataProcessor.create_database s (db w) = (false, db w)
  /\ RunProject.process_data parse_float src w = (false, w).
Proof.
  intros [-> | [-> | ->]]; cbv zeta; repeat split; reflexivity.
Qed.

Lemma load_failure_writes_nothing_witness :
  (Missing = Missing \/ Missing = Unreadable \/ Missing = Workbook None)
  /\ OlaDataProcessor.create_database
       (snd (OlaDataProcessor.load_data Missing OlaDataProcessor.init)) (db earlier_run)
     = (false, db earlier_run)
  /\ RunProject.process_data no_parse Missing earlier_run = (false, earlier_run).
Proof.
  split; [left; reflexivity|].
  pose proof (load_failure_writes_nothing no_parse Missing earlier_run
                (or_introl eq_refl)) as H.
  cbv zeta in H. split; apply H.
Defined.

(** C5 fails on a sheet without rows: it is loaded as the empty frame, and
    [process_data] succeeds and replaces the [rides] table an earlier run
    had written by an empty one. *)
Lemma empty_sheet_is_loaded_and_persisted :
  fst (OlaDataProcessor.load_data empty_sheet OlaDataProcessor.init) = Some []
  /\ fst (RunProject.process_data no_parse empty_sheet earlier_run) = true
  /\ db earlier_run !! "rides"%string
     = Some (ProjectRidesT (List.map (process_row no_parse) first_sheet))
  /\ db (snd (RunProject.process_data no_parse empty_sheet earlier_run)) !! "rides"%string
     = Some (ProjectRidesT [])
  /\ snd (RunProject.process_data no_parse empty_sheet earlier_run) <> earlier_run.
Proof.
  repeat split; try (vm_compute; reflexivity).
  intros Heq.
  assert (H : db (snd (RunProject.process_data no_parse empty_sheet earlier_run))
                !! "rides"%string
              = db earlier_run !! "rides"%string) by now rewrite Heq.
  vm_compute in H. discriminate H.
Qed.

(** ** The order of reals *)

Lemma real_leb_total (a b : option float) :
  Sql.real_leb a b = false -> Sql.real_leb b a = true.
Proof.
  destruct a as [[p| |]|], b as [[q| |]|]; cbn; try congruence.
  intros H. apply Qle_bool_false in H. apply Qle_bool_iff. now apply Qlt_le_weak.
Qed.

Lemma real_leb_trans (a b c : option float) :
  Sql.real_leb a b = true -> Sql.real_leb b c = true -> Sql.real_leb a c = true.
Proof.
  destruct a as [[p| |]|], b as [[q| |]|], c as [[r| |]|]; cbn; try congruence.
  rewrite !Qle_bool_iff. apply Qle_trans.
Qed.



(** ** Sorting *)

Section SortingFacts.

Context {R : Type}.

Variable leb : R -> R -> bool.

Hypothesis leb_total : forall a b, leb a b = false -> leb b a = true.
Hypothesis leb_trans : forall a b c, leb a b = true -> leb b c = true -> leb a c = true.

Lemma insert_sorted_perm (x : R) (l : list R) :
  Permutation (x :: l) (Sql.insert_sorted leb x l).
Proof.
  induction l as [|y l IH]; cbn; [reflexivity|].
  destruct (leb x y); [reflexivity|].
  rewrite perm_swap. now constructor.
Qed.

Lemma sort_by_perm (l : list R) : Permutation l (Sql.sort_by leb l).
Proof.
  induction l as [|x l IH]; cbn; [constructor|].
  rewrite <- insert_sorted_perm. now constructor.
Qed.

Lemma insert_sorted_sorted (x : R) (l : list R) :
  StronglySorted (fun a b => leb a b = true) l ->
  StronglySorted (fun a b => leb a b = true) (Sql.insert_sorted leb x l).
Proof.
  induction 1 as [|y l Hl IH Hy]; cbn.
  - repeat constructor.
  - destruct (leb x y) eqn:E.
    + constructor; [now constructor|]. constructor; [assumption|].
      eapply List.Forall_impl; [|exact Hy]. intros z Hz. cbn in Hz. eauto.
    + constructor; [assumption|].
      eapply Permutation_Forall; [apply insert_sorted_perm|].
      constructor; [now apply leb_total | assumption].
Qed.

Lemma sort_by_sorted (l : list R) :
  StronglySorted (fun a b => leb a b = true) (Sql.sort_by leb l).
Proof.
  induction l as [|x l IH]; cbn; [constructor|]. now apply insert_sorted_sorted.
Qed.

End SortingFacts.

(** [ORDER BY key DESC] has a result for every list of rows. *)
Lemma order_by_desc_exists {R : Type} (key : R -> option float) (l : list R) :
  exists sorted, Sql.order_by_desc key l sorted.
Proof.
  exists (Sql.sort_by (fun a b => Sql.real_leb (key b) (key a)) l). split.
  - apply sort_by_perm.
  - apply sort_by_sorted.
    + intros a b. apply real_leb_total.
    + intros a b c Hab Hbc. eapply real_leb_trans; eassumption.
Qed.



(** ** The top-customers query *)

Lemma limit_map {A B : Type} (f : A -> B) (n : Z) (l : list A) :
  List.map f (Sql.limit n l) = Sql.limit n (List.map f l).
Proof.
  unfold Sql.limit. destruct (n <? 0); [reflexivity|].
  symmetry. apply List.firstn_map.
Qed.

Lemma in_firstn {A : Type} (m : nat) (l : list A) (x : A) :
  In x (List.firstn m l) -> In x l.
Proof.
  revert l. induction m as [|m IH]; intros [|y l]; cbn; try tauto.
  intros [->|Hin]; [now left | right; now apply IH].
Qed.



(** The call has an outcome for every database and every limit. *)
Lemma get_top_customers_total (conn : database) (limit : Z) :
  exists res, BusinessQueries.get_top_customers conn limit res.
Proof.
  unfold BusinessQueries.get_top_customers, BusinessQueries.top_customers_query.
  destruct (BusinessQueries.binds limit).
  - destruct (select_rides conn) as [rides|].
    + destruct (order_by_desc_exists TopCustomers.Total_Spent
                  (BusinessQueries.having_spent (BusinessQueries.customer_totals rides)))
        as [sorted Hsorted].
      eexists. exists (Returned (Sql.limit limit sorted)).
      split; [|reflexivity]. now exists sorted.
    + eexists. eexists. split; reflexivity.
  - eexists. eexists. split; reflexivity.
Qed.

(** What a call returns: never an exception, and the database it was given. *)
Lemma get_top_customers_returns (conn : database) (limit : Z)
    (res : outcome TopCustomers.t * database) :
  BusinessQueries.get_top_customers conn limit res ->
  snd res = conn /\ exists df, fst res = Returned df.
Proof.
  intros (run & _ & ->). split; [reflexivity|].
  destruct run as [e|df]; cbn; eauto.
Qed.


Lemma tied_rides :
  select_rides tied = Some (List.map view_of_row (clean_data no_parse tied_sheet)).
Proof. reflexivity. Qed.

Lemma tied_totals :
  BusinessQueries.having_spent
    (BusinessQueries.customer_totals
       (List.map view_of_row (clean_data no_parse tied_sheet)))
  = [spent_100 "C1"; spent_100 "C2"].
Proof. vm_compute. reflexivity. Qed.

(** On the database [tied], every descending order of the two customers,
    cut at the limit, is a result. *)
Lemma tied_result (limit : Z) (sorted : list TopCustomers.t) :
  BusinessQueries.binds limit = true ->
  Permutation [spent_100 "C1"; spent_100 "C2"] sorted ->
  Sql.ordered_desc TopCustomers.Total_Spent sorted ->
  BusinessQueries.get_top_customers tied limit (Returned (Sql.limit limit sorted), tied).
Proof.
  intros Hb Hperm Hord. exists (Returned (Sql.limit limit sorted)).
  split; [|reflexivity].
  unfold BusinessQueries.top_customers_query. rewrite Hb, tied_rides, tied_totals.
  exists sorted. repeat split; assumption.
Qed.

Lemma tied_ordered (a b : string) :
  Sql.ordered_desc TopCustomers.Total_Spent [spent_100 a; spent_100 b].
Proof. repeat constructor. Qed.


(** C8, as the code has it.  A negative limit is no error: the call returns
    a frame and leaves the database as it is.  When the limit fits a SQLite
    integer and there is a rides table, the frame holds every customer with
    Total_Spent above 0, in descending order of Total_Spent. *)
Theorem negative_limit_returns_all (conn : database) (limit : Z) :
  limit < 0 ->
  (exists res, BusinessQueries.get_top_customers conn limit res)
  /\ forall res,
       BusinessQueries.get_top_customers conn limit res ->
       snd res = conn
       /\ exists df,
            fst res = Returned df
            /\ forall rides,
                 BusinessQueries.binds limit = true ->
                 select_rides conn = Some rides ->
                 Permutation
                   (BusinessQueries.having_spent (BusinessQueries.customer_totals rides))
                   df
                 /\ Sql.ordered_desc TopCustomers.Total_Spent df.
Proof.
  intros Hneg. split; [apply get_top_customers_total|].
  intros res (run & Hq & ->). split; [reflexivity|].
  unfold BusinessQueries.top_customers_query in Hq.
  destruct (BusinessQueries.binds limit).
  - destruct (select_rides conn) as [rides|].
    + destruct Hq as (sorted & [Hperm Hord] & ->).
      exists (Sql.limit limit sorted). split; [reflexivity|].
      intros rides' _ [= <-]. unfold Sql.limit.
      apply Z.ltb_lt in Hneg. rewrite Hneg. now split.
    + subst run. exists []. split; [reflexivity|]. discriminate.
  - subst run. exists []. split; [reflexivity|]. discriminate.
Qed.

Lemma negative_limit_returns_all_witness :
  -1 < 0
  /\ (exists res, BusinessQueries.get_top_customers tied (-1) res)
  /\ forall res,
       BusinessQueries.get_top_customers tied (-1) res ->
       snd res = tied
       /\ exists df,
            fst res = Returned df
            /\ forall rides,
                 BusinessQueries.binds (-1) = true ->
                 select_rides tied = Some rides ->
                 Permutation
                   (BusinessQueries.having_spent (BusinessQueries.customer_totals rides))
                   df
                 /\ Sql.ordered_desc TopCustomers.Total_Spent df.
Proof.
  split; [lia|]. apply (negative_limit_returns_all tied (-1)). lia.
Defined.

(** C8 fails: with limit -1 the call returns the frame of both customers,
    and no call with that limit raises. *)
Lemma negative_limit_is_no_error :
  BusinessQueries.get_top_customers tied (-1)
    (Returned [spent_100 "C1"; spent_100 "C2"], tied)
  /\ forall res e,
       BusinessQueries.get_top_customers tied (-1) res -> fst res <> Raised e.
Proof.
  split.
  - apply (tied_result (-1) [spent_100 "C1"; spent_100 "C2"]);
      [reflexivity | reflexivity | apply tied_ordered].
  - intros res e Hres. apply get_top_customers_returns in Hres as [_ [df ->]].
    discriminate.
Qed.

(** * Further properties *)

(** ** What [create_database] and [process_data] leave *)

Lemma select_rides_create_if_missing (name : string) (t : table) (conn : database) :
  name <> "rides"%string ->
  select_rides (create_if_missing name t conn) = select_rides conn.
Proof.
  intros Hne. unfold create_if_missing, select_rides.
  destruct (conn !! name); [reflexivity|].
  rewrite lookup_insert_ne by assumption. reflexivity.
Qed.

Lemma create_table_if_not_exists_as_ok (name : string)
    (select : list rides_view -> table) (conn : database) (rides : list rides_view) :
  select_rides conn = Some rides ->
  create_table_if_not_exists_as name select conn
  = Some (create_if_missing name (select rides) conn).
Proof.
  intros Hr. unfold create_table_if_not_exists_as, create_if_missing.
  destruct (conn !! name); [reflexivity|]. now rewrite Hr.
Qed.

Lemma lookup_create_if_missing (name : string) (t : table) (conn : database)
    (other : string) :
  create_if_missing name t conn !! other
  = if bool_decide (other = name)
    then match conn !! name with Some t0 => Some t0 | None => Some t end
    else conn !! other.
Proof.
  unfold create_if_missing. case_bool_decide as Heq.
  - subst other. destruct (conn !! name) eqn:E; [exact E|].
    apply lookup_insert_eq.
  - destruct (conn !! name); [reflexivity|].
    rewrite lookup_insert_ne by congruence. reflexivity.
Qed.

(** The database a run of [create_database] over a cleaned frame leaves. *)
Lemma create_database_cleaned (s : OlaDataProcessor.self) (cleaned : list row)
    (conn : database) :
  OlaDataProcessor.self_clean_data s = Some cleaned ->
  let rides := List.map view_of_row cleaned in
  OlaDataProcessor.create_database s conn
  = (true,
     create_if_missing "customer_summary"
       (CustomerT (DataProcessorSql.customer_summary_query rides))
       (create_if_missing "daily_summary"
          (DailyT (DataProcessorSql.daily_summary_query rides))
          (create_if_missing "vehicle_summary"
             (VehicleT (DataProcessorSql.vehicle_summary_query rides))
             (<["rides"%string := RidesT cleaned]> conn)))).
Proof.
  intros Hs. cbv zeta. unfold OlaDataProcessor.create_database. rewrite Hs.
  unfold OlaDataProcessor._create_summary_tables, to_sql_replace, and_then.
  assert (Hr : select_rides (<["rides"%string := RidesT cleaned]> conn)
               = Some (List.map view_of_row cleaned)).
  { unfold select_rides. now rewrite lookup_insert_eq. }
  rewrite (create_table_if_not_exists_as_ok _ _ _ _ Hr).
  rewrite (create_table_if_not_exists_as_ok "daily_summary" _ _
             (List.map view_of_row cleaned))
    by (rewrite select_rides_create_if_missing by discriminate; exact Hr).
  rewrite (create_table_if_not_exists_as_ok "customer_summary" _ _
             (List.map view_of_row cleaned))
    by (rewrite !select_rides_create_if_missing by discriminate; exact Hr).
  reflexivity.
Qed.

Lemma in_get_all_tables (conn : database) (name : string) :
  in_list name (get_all_tables conn) = true <-> is_Some (conn !! name).
Proof.
  unfold in_list, get_all_tables. rewrite bool_decide_eq_true.
  rewrite list_elem_of_fmap. split.
  - intros ([k t] & -> & Hin). apply elem_of_map_to_list in Hin. cbn. eauto.
  - intros [t Ht]. exists (name, t). split; [reflexivity|].
    now apply elem_of_map_to_list.
Qed.

Lemma filter_nil_Forall {A : Type} (p : A -> bool) (l : list A) :
  List.filter p l = [] <-> Forall (fun x => p x = false) l.
Proof.
  induction l as [|x l IH]; cbn.
  - split; [constructor | reflexivity].
  - destruct (p x) eqn:E.
    + split; [discriminate | intros H; inversion H; congruence].
    + rewrite IH. split; [now constructor | intros H; now inversion H].
Qed.

Lemma tables_exist_iff (conn : database) :
  ValidationResults.tables_exist (validate_database_integrity conn) = true
  <-> Forall (fun name => is_Some (conn !! name)) required_tables.
Proof.
  assert (Hmissing :
    List.filter (fun t => negb (in_list t (get_all_tables conn))) required_tables = []
    <-> Forall (fun name => is_Some (conn !! name)) required_tables).
  { rewrite filter_nil_Forall. rewrite !List.Forall_forall.
    split; intros H name Hin; specialize (H name Hin).
    - apply in_get_all_tables. now apply negb_false_iff.
    - apply negb_false_iff. now apply in_get_all_tables. }
  rewrite <- Hmissing. unfold validate_database_integrity.
  generalize (List.filter (fun t => negb (in_list t (get_all_tables conn)))
                required_tables).
  intros missing.
  destruct (in_list "rides" (get_all_tables conn));
    [destruct (_validate_rides_table conn); [destruct (_get_database_summary conn)|]|];
    cbn; destruct missing; split; congruence.
Qed.

Lemma create_if_missing_id (name : string) (t : table) (conn : database) :
  is_Some (conn !! name) -> create_if_missing name t conn = conn.
Proof. intros [t0 H]. unfold create_if_missing. now rewrite H. Qed.

Lemma required_tables_cases (P : string -> Prop) :
  P "rides"%string -> P "vehicle_summary"%string ->
  P "daily_summary"%string -> P "customer_summary"%string ->
  Forall P required_tables.
Proof. intros. repeat apply List.Forall_cons; trivial. Qed.

Lemma not_required (other : string) :
  ~ In other required_tables ->
  other <> "rides"%string /\ other <> "vehicle_summary"%string
  /\ other <> "daily_summary"%string /\ other <> "customer_summary"%string.
Proof. unfold required_tables. cbn. intuition congruence. Qed.

(** What three [CREATE TABLE IF NOT EXISTS] after a write of [rides] leave:
    the four tables exist, [rides] is the table written, and no table of
    another name is touched. *)
Lemma rebuilt_database (conn : database) (rides_table tv td tc : table) :
  let conn' :=
    create_if_missing "customer_summary" tc
      (create_if_missing "daily_summary" td
         (create_if_missing "vehicle_summary" tv
            (<["rides"%string := rides_table]> conn))) in
  conn' !! "rides"%string = Some rides_table
  /\ Forall (fun name => is_Some (conn' !! name)) required_tables
  /\ forall other, ~ In other required_tables -> conn' !! other = conn !! other.
Proof.
  cbv zeta. split; [|split].
  - rewrite !lookup_create_if_missing.
    rewrite !bool_decide_eq_false_2 by discriminate. apply lookup_insert_eq.
  - apply required_tables_cases; rewrite !lookup_create_if_missing;
      repeat (rewrite bool_decide_eq_true_2 by reflexivity
              || rewrite bool_decide_eq_false_2 by discriminate);
      rewrite ?lookup_create_if_missing;
      repeat (rewrite bool_decide_eq_true_2 by reflexivity
              || rewrite bool_decide_eq_false_2 by discriminate);
      rewrite ?lookup_insert_eq;
      repeat match goal with
             | |- context [match ?x with Some _ => _ | None => _ end] => destruct x
             end;
      eauto.
  - intros other Hother. apply not_required in Hother as (H1 & H2 & H3 & H4).
    rewrite !lookup_create_if_missing.
    rewrite !bool_decide_eq_false_2 by assumption.
    now rewrite lookup_insert_ne by congruence.
Qed.

(** X1. [create_database] returns False exactly when no frame has been
    cleaned, and then leaves the database as it is.  Otherwise it returns
    True, [rides] holds the cleaned frame, the four tables that
    [validate_database_integrity] requires exist, and no table of another
    name is touched. *)
Theorem create_database_outcome (s : OlaDataProcessor.self) (conn : database) :
  match OlaDataProcessor.self_clean_data s with
  | None => OlaDataProcessor.create_database s conn = (false, conn)
  | Some cleaned =>
      let conn' := snd (OlaDataProcessor.create_database s conn) in
      fst (OlaDataProcessor.create_database s conn) = true
      /\ conn' !! "rides"%string = Some (RidesT cleaned)
      /\ ValidationResults.tables_exist (validate_database_integrity conn') = true
      /\ forall other, ~ In other required_tables -> conn' !! other = conn !! other
  end.
Proof.
  destruct (OlaDataProcessor.self_clean_data s) as [cleaned|] eqn:Hs.
  - cbv zeta. rewrite (create_database_cleaned s cleaned conn Hs). cbn [fst snd].
    edestruct rebuilt_database as (Hr & Hall & Hother).
    split; [reflexivity|]. split; [exact Hr|]. split; [|exact Hother].
    apply tables_exist_iff. exact Hall.
  - unfold OlaDataProcessor.create_database. now rewrite Hs.
Qed.

(** X2. Running [create_database] a second time with the same processor
    changes nothing: it returns what the first run returned and leaves the
    database the first run left. *)
Theorem create_database_twice (s : OlaDataProcessor.self) (conn : database) :
  OlaDataProcessor.create_database s
    (snd (OlaDataProcessor.create_database s conn))
  = OlaDataProcessor.create_database s conn.
Proof.
  destruct (OlaDataProcessor.self_clean_data s) as [cleaned|] eqn:Hs.
  - rewrite (create_database_cleaned s cleaned conn Hs). cbn [snd].
    rewrite (create_database_cleaned s cleaned _ Hs). cbv zeta. f_equal.
    edestruct (rebuilt_database conn (RidesT cleaned)) as (Hr & Hall & _).
    rewrite (insert_id _ _ _ Hr).
    unfold required_tables in Hall.
    apply List.Forall_cons_iff in Hall as [_ Hall].
    apply List.Forall_cons_iff in Hall as [Hv Hall].
    apply List.Forall_cons_iff in Hall as [Hd Hall].
    apply List.Forall_cons_iff in Hall as [Hc _].
    rewrite (create_if_missing_id "vehicle_summary" _ _ Hv).
    rewrite (create_if_missing_id "daily_summary" _ _ Hd).
    rewrite (create_if_missing_id "customer_summary" _ _ Hc).
    reflexivity.
  - unfold OlaDataProcessor.create_database. rewrite Hs. reflexivity.
Qed.


(** ** run_project.py, step by step *)


Lemma select_rides_rebuilt (conn : database) (rides_table tv td tc : table) :
  select_rides
    (create_if_missing "customer_summary" tc
       (create_if_missing "daily_summary" td
          (create_if_missing "vehicle_summary" tv
             (<["rides"%string := rides_table]> conn))))
  = select_rides (<["rides"%string := rides_table]> ∅).
Proof.
  rewrite !select_rides_create_if_missing by discriminate.
  unfold select_rides. now rewrite !lookup_insert_eq.
Qed.


Lemma group_by_nil {R K : Type} `{EqDecision K} (key : R -> K) (rows : list R) :
  Sql.group_by key rows = [] <-> rows = [].
Proof.
  split.
  - intros Hg. pose proof (rows_in_group_by key rows) as Hrows.
    rewrite Hg in Hrows. cbn in Hrows. now destruct rows.
  - now intros ->.
Qed.

Lemma sort_by_nil {R : Type} (leb : R -> R -> bool) (l : list R) :
  Sql.sort_by leb l = [] <-> l = [].
Proof.
  pose proof (sort_by_perm leb l) as Hperm. split.
  - intros Hs. rewrite Hs in Hperm. now apply Permutation_sym, Permutation_nil in Hperm.
  - now intros ->.
Qed.

Lemma limit_1_nil {R : Type} (l : list R) : Sql.limit 1 l = [] <-> l = [].
Proof.
  destruct l as [|x l]; [split; reflexivity|].
  change (Sql.limit 1 (x :: l)) with [x]. split; discriminate.
Qed.

Lemma map_nil_iff {A B : Type} (f : A -> B) (l : list A) :
  List.map f l = [] <-> l = [].
Proof. destruct l; cbn; split; congruence. Qed.

Lemma top_vehicle_query_nil (rides : list rides_view) :
  Project.top_vehicle_query rides = [] <-> Project.successes rides = [].
Proof.
  unfold Project.top_vehicle_query.
  now rewrite limit_1_nil, sort_by_nil, map_nil_iff, group_by_nil.
Qed.

Lemma eq_Success_iff (status : option string) :
  eq_Success status = true <-> status = Some "Success"%string.
Proof.
  destruct status as [s|]; cbn; [|split; discriminate].
  rewrite String.eqb_eq. split; congruence.
Qed.

Lemma filter_nil_not_Exists {A : Type} (p : A -> bool) (l : list A) :
  List.filter p l = [] <-> ~ Exists (fun x => p x = true) l.
Proof.
  rewrite filter_nil_Forall, <- List.Forall_Exists_neg.
  split; apply List.Forall_impl; intros x; destruct (p x); congruence.
Qed.

(** [execute_sql_queries] returns True exactly when [rides] can be queried
    and holds a booking with status 'Success'. *)
Lemma execute_sql_queries_iff (conn : database) :
  is_Some (Project.execute_sql_queries conn)
  <-> exists rides, select_rides conn = Some rides
                    /\ Exists (fun r => status_is_success r = true) rides.
Proof.
  unfold Project.execute_sql_queries.
  destruct (select_rides conn) as [rides|].
  - pose proof (top_vehicle_query_nil rides) as Hnil.
    unfold Project.successes in Hnil. rewrite filter_nil_not_Exists in Hnil.
    destruct (Project.top_vehicle_query rides) as [|top rest].
    + split.
      * intros [x Hx]. discriminate.
      * intros (rides' & [= <-] & Hex). exfalso. now apply Hnil.
    + split; [|eauto]. intros _. exists rides. split; [reflexivity|].
      destruct (List.Exists_dec (fun r => status_is_success r = true) rides) as [|Hno];
        [intros r; destruct (status_is_success r); [left | right]; congruence | assumption |].
      apply Hnil in Hno. discriminate.
  - split; [intros [x Hx]; discriminate | intros (rides & Hr & _); discriminate].
Qed.



(** ** More on the cleaned frame *)

Lemma replace_null_not_null (c : option string) :
  replace_null c <> Some "null"%string.
Proof.
  destruct c as [s|]; cbn; [|discriminate].
  destruct (String.eqb s "null") eqn:E; [discriminate|].
  intros [= ->]. discriminate E.
Qed.

(** X6. No text cell of the cleaned frame is the text 'null'. *)
Theorem clean_data_has_no_null_text (parse_float : string -> option float)
    (raw : list raw_row) (r : row) :
  In r (clean_data parse_float raw) ->
  Forall (fun column => column (cols r) <> Some "null"%string) text_columns.
Proof.
  intros Hin. apply in_clean_data in Hin as (r0 & _ & _ & ->).
  unfold text_columns. repeat apply List.Forall_cons; try apply List.Forall_nil;
    try apply replace_null_not_null.
  cbn. destruct (replace_null (Payment_Method r0)) as [m|] eqn:E.
  - rewrite <- E. apply replace_null_not_null.
  - destruct (eq_Success _); discriminate.
Qed.

Lemma clean_data_has_no_null_text_witness :
  let r0 := booking "null" "null" "Auto" "Success" (Text "null") (num 3) in
  In (clean_row no_parse r0) (clean_data no_parse [r0])
  /\ Forall (fun column => column (cols (clean_row no_parse r0)) <> Some "null"%string)
       text_columns.
Proof.
  cbv zeta.
  assert (Hin : In (clean_row no_parse
                      (booking "null" "null" "Auto" "Success" (Text "null") (num 3)))
                   (clean_data no_parse
                      [booking "null" "null" "Auto" "Success" (Text "null") (num 3)])).
  { vm_compute. left. reflexivity. }
  split; [exact Hin|].
  exact (clean_data_has_no_null_text no_parse _ _ Hin).
Defined.

(** X7. In the cleaned frame a success is no cancellation and has a
    payment method, and a booking that is no success has a ride distance. *)
Theorem clean_data_fills_and_flags (parse_float : string -> option float)
    (raw : list raw_row) (r : row) :
  In r (clean_data parse_float raw) ->
  (Is_Successful r = 1 ->
   Booking_Status (cols r) = Some "Success"%string
   /\ Is_Customer_Cancel r = 0 /\ Is_Driver_Cancel r = 0
   /\ Payment_Method (cols r) <> None)
  /\ (Is_Successful r = 0 ->
      Booking_Status (cols r) <> Some "Success"%string
      /\ Ride_Distance (cols r) <> None).
Proof.
  intros Hin. apply in_clean_data in Hin as (r0 & _ & _ & ->).
  rewrite clean_row_Ride_Distance, clean_row_Booking_Status. cbn.
  destruct (eq_Success (replace_null (Booking_Status r0))) eqn:Es; cbn.
  - apply eq_Success_iff in Es. split; [|discriminate]. intros _.
    rewrite Es. cbn. repeat split.
    destruct (replace_null (Payment_Method r0)); discriminate.
  - split; [discriminate|]. intros _. split.
    + intros Heq. apply eq_Success_iff in Heq. congruence.
    + destruct (numeric parse_float (Ride_Distance r0)); discriminate.
Qed.

Lemma clean_data_fills_and_flags_witness :
  let r0 := booking "B1" "C1" "Auto" "Cancelled by Customer" (num 100) NaN in
  let r := clean_row no_parse r0 in
  In r (clean_data no_parse [r0])
  /\ (Is_Successful r = 1 ->
      Booking_Status (cols r) = Some "Success"%string
      /\ Is_Customer_Cancel r = 0 /\ Is_Driver_Cancel r = 0
      /\ Payment_Method (cols r) <> None)
  /\ (Is_Successful r = 0 ->
      Booking_Status (cols r) <> Some "Success"%string
      /\ Ride_Distance (cols r) <> None).
Proof.
  cbv zeta.
  assert (Hin : In (clean_row no_parse
                      (booking "B1" "C1" "Auto" "Cancelled by Customer" (num 100) NaN))
                   (clean_data no_parse
                      [booking "B1" "C1" "Auto" "Cancelled by Customer" (num 100) NaN])).
  { vm_compute. left. reflexivity. }
  split; [exact Hin|].
  exact (clean_data_fills_and_flags no_parse _ _ Hin).
Defined.

(** ** Validation *)

Lemma select_rides_is_Some (conn : database) (rides : list rides_view) :
  select_rides conn = Some rides -> is_Some (conn !! "rides"%string).
Proof.
  unfold select_rides. destruct (conn !! "rides"%string); [eauto | discriminate].
Qed.

Lemma frame_query_rides {A : Type} (conn : database) (q : list rides_view -> list A) :
  frame (query_rides conn q)
  = match select_rides conn with Some rides => q rides | None => [] end.
Proof. unfold frame, query_rides. now destruct (select_rides conn). Qed.

Lemma missing_tables_nil (conn : database) :
  ValidationResults.tables_exist (validate_database_integrity conn) = true ->
  ValidationResults.missing_tables (validate_database_integrity conn) = [].
Proof.
  unfold validate_database_integrity.
  generalize (List.filter (fun t => negb (in_list t (get_all_tables conn)))
                required_tables).
  intros missing.
  destruct (in_list "rides" (get_all_tables conn));
    [destruct (_validate_rides_table conn); [destruct (_get_database_summary conn)|]|];
    cbn; destruct missing; congruence.
Qed.

(** The checks of [validate_database_integrity] on a database whose [rides]
    can be queried. *)
Lemma validate_rides (conn : database) (rides : list rides_view) :
  select_rides conn = Some rides ->
  ValidationResults.data_quality_rides (validate_database_integrity conn)
  = Some {| RidesValidation.null_values := null_check_query rides;
            RidesValidation.data_consistency := consistency_query rides;
            RidesValidation.status_distribution := status_query rides |}
  /\ ValidationResults.summary (validate_database_integrity conn)
     = Some {| DatabaseSummary.overall := overall_query rides;
               DatabaseSummary.vehicle_performance := vehicle_query rides |}
  /\ ValidationResults.error (validate_database_integrity conn) = None.
Proof.
  intros Hr. unfold validate_database_integrity.
  pose proof (select_rides_is_Some _ _ Hr) as Hin.
  apply in_get_all_tables in Hin. rewrite Hin.
  unfold _validate_rides_table, _get_database_summary.
  rewrite !frame_query_rides, Hr. cbn. repeat split.
Qed.

Lemma length_remove_dups_le {A : Type} `{EqDecision A} (l : list A) :
  (List.length (remove_dups l) <= List.length l)%nat.
Proof.
  induction l as [|x l IH]; cbn; [lia|].
  destruct (decide_rel elem_of x l); cbn; lia.
Qed.

Lemma length_omap_le {A B : Type} (f : A -> option B) (l : list A) :
  (List.length (omap f l) <= List.length l)%nat.
Proof.
  induction l as [|x l IH]; cbn; [lia|]. destruct (f x); cbn; lia.
Qed.

Lemma count_distinct_le {R K : Type} `{EqDecision K} (x : R -> option K)
    (rows : list R) :
  0 <= SqlExpr.count_distinct x rows <= Sql.count_star rows.
Proof.
  unfold SqlExpr.count_distinct, Sql.count_star.
  pose proof (length_remove_dups_le (omap x rows)).
  pose proof (length_omap_le x rows). lia.
Qed.

Lemma cleaned_views_not_negative (parse_float : string -> option float)
    (raw : list raw_row) (v : rides_view) :
  In v (List.map view_of_row (clean_data parse_float raw)) ->
  lt0 (Booking_Value (v_cols v)) = false /\ lt0 (Ride_Distance (v_cols v)) = false.
Proof.
  intros Hin. apply List.in_map_iff in Hin as (r & <- & Hin).
  apply in_clean_data in Hin as (r0 & _ & Hd & ->).
  unfold dropped in Hd. apply orb_false_iff in Hd as [Hv Hr].
  cbn [view_of_row v_cols]. now rewrite ride_distance_lt0, clean_row_Booking_Value.
Qed.

Lemma count_when_none {R : Type} (p : R -> bool) (rows : list R) :
  (forall r, In r rows -> p r = false) -> SqlExpr.count_when p rows = 0.
Proof.
  intros H. unfold SqlExpr.count_when. now rewrite (filter_none p rows H).
Qed.

Lemma cleaned_processor_clean_data (parse_float : string -> option float)
    (sheet : list raw_row) :
  OlaDataProcessor.self_clean_data (cleaned_processor parse_float sheet)
  = Some (clean_data parse_float sheet).
Proof. reflexivity. Qed.

(** X8. Load a sheet, clean it, write the database and validate it:
    [validate_database_integrity] finds the four tables, raises nothing, and
    its consistency check counts as many records as there are cleaned rows,
    among them no negative booking value and no negative distance, and at
    most as many distinct booking ids as records.  This holds whatever the
    database held before. *)
Theorem cleaned_database_validates (parse_float : string -> option float)
    (sheet : list raw_row) (conn : database) :
  let cleaned := clean_data parse_float sheet in
  let conn' :=
    snd (OlaDataProcessor.create_database (cleaned_processor parse_float sheet) conn) in
  let results := validate_database_integrity conn' in
  ValidationResults.tables_exist results = true
  /\ ValidationResults.missing_tables results = []
  /\ ValidationResults.error results = None
  /\ exists checks,
       ValidationResults.data_quality_rides results = Some checks
       /\ DataConsistency.total_records (RidesValidation.data_consistency checks)
          = Z.of_nat (List.length cleaned)
       /\ DataConsistency.negative_booking_values (RidesValidation.data_consistency checks)
          = 0
       /\ DataConsistency.negative_distances (RidesValidation.data_consistency checks) = 0
       /\ 0 <= DataConsistency.unique_booking_ids (RidesValidation.data_consistency checks)
            <= Z.of_nat (List.length cleaned).
Proof.
  cbv zeta.
  rewrite (create_database_cleaned _ _ conn (cleaned_processor_clean_data parse_float sheet)).
  cbn [snd].
  set (cleaned := clean_data parse_float sheet).
  set (rides := List.map view_of_row cleaned).
  edestruct (rebuilt_database conn (RidesT cleaned)) as (_ & Hall & _).
  apply tables_exist_iff in Hall as Hexist.
  match goal with |- context [validate_database_integrity ?c] => set (conn' := c) in * end.
  assert (Hr : select_rides conn' = Some rides).
  { unfold conn'. rewrite select_rides_rebuilt. reflexivity. }
  destruct (validate_rides conn' rides Hr) as (Hq & _ & He).
  split; [exact Hexist|]. split.
  { now apply missing_tables_nil. }
  split; [exact He|].
  eexists. split; [exact Hq|]. cbn.
  assert (Hlen : Sql.count_star rides = Z.of_nat (List.length cleaned)).
  { unfold Sql.count_star, rides. now rewrite List.length_map. }
  rewrite Hlen. split; [reflexivity|]. split; [|split].
  - apply count_when_none. intros v Hv.
    now apply (cleaned_views_not_negative parse_float sheet).
  - apply count_when_none. intros v Hv.
    now apply (cleaned_views_not_negative parse_float sheet).
  - rewrite <- Hlen. apply count_distinct_le.
Qed.

(** ** Grouped tables *)

Lemma sum_counts_perm {T : Type} (count : T -> Z) (l l' : list T) :
  Permutation l l' ->
  List.fold_right Z.add 0 (List.map count l)
  = List.fold_right Z.add 0 (List.map count l').
Proof.
  induction 1 as [|x l l' _ IH|x y l|l l' l'' _ IH1 _ IH2]; cbn; lia.
Qed.

(** The counts of the groups of a table add up to its rows. *)
Lemma sum_counts_groups {R K T : Type} `{EqDecision K} (key : R -> K)
    (row_of : K -> list R -> T) (count : T -> Z) (rows : list R) :
  (forall k g, count (row_of k g) = Sql.count_star g) ->
  List.fold_right Z.add 0
    (List.map count (List.map (fun '(k, g) => row_of k g) (Sql.group_by key rows)))
  = Z.of_nat (List.length rows).
Proof.
  intros Hcount. rewrite <- (rows_in_group_by key rows).
  generalize (Sql.group_by key rows). intros gs.
  induction gs as [|[k g] gs IH]; [reflexivity|].
  cbn [List.map List.fold_right]. rewrite IH, Hcount, rows_in_cons.
  unfold Sql.count_star. lia.
Qed.

(** The keys of the groups are those of the rows, each once. *)
Lemma group_by_keys {R K T : Type} `{EqDecision K} (key : R -> K)
    (row_of : K -> list R -> T) (key_of : T -> K) (rows : list R) :
  (forall k g, key_of (row_of k g) = k) ->
  List.NoDup
    (List.map key_of (List.map (fun '(k, g) => row_of k g) (Sql.group_by key rows)))
  /\ forall k, In k (List.map key_of
                       (List.map (fun '(k, g) => row_of k g) (Sql.group_by key rows)))
               <-> In k (List.map key rows).
Proof.
  intros Hkey.
  assert (Hmap : List.map key_of
                   (List.map (fun '(k, g) => row_of k g) (Sql.group_by key rows))
                 = List.map fst (Sql.group_by key rows)).
  { rewrite List.map_map. apply List.map_ext. intros [k g]. apply Hkey. }
  rewrite Hmap.
  destruct (group_by_groups_of key rows) as (Hnd & Hgroups & Hkeys).
  split; [exact Hnd|]. intros k. split.
  - intros Hin. apply List.in_map_iff in Hin as ([k' g] & <- & Hin).
    destruct (Hgroups _ _ Hin) as [Hne Hg]. cbn [fst].
    destruct g as [|r g]; [contradiction|].
    assert (Hr : In r (List.filter (fun r => bool_decide (key r = k')) rows))
      by (rewrite <- Hg; now left).
    apply List.filter_In in Hr as [Hr Hk]. apply bool_decide_eq_true in Hk.
    rewrite <- Hk. now apply List.in_map.
  - intros Hin. apply List.in_map_iff in Hin as (r & <- & Hin). now apply Hkeys.
Qed.

Lemma date_leb_iff (a b : date) :
  date_leb a b = true
  <-> d_year a < d_year b
      \/ (d_year a = d_year b
          /\ (d_month a < d_month b \/ (d_month a = d_month b /\ d_day a <= d_day b))).
Proof.
  unfold date_leb.
  rewrite !orb_true_iff, !andb_true_iff, !orb_true_iff, !andb_true_iff.
  rewrite !Z.ltb_lt, !Z.eqb_eq, Z.leb_le. tauto.
Qed.

Lemma date_key_leb_total (a b : option date) :
  Sql.date_key_leb a b = false -> Sql.date_key_leb b a = true.
Proof.
  destruct a as [a|], b as [b|]; cbn; try congruence.
  intros H. apply date_leb_iff.
  assert (Hn : ~ (date_leb a b = true)) by congruence.
  rewrite date_leb_iff in Hn. lia.
Qed.

Lemma date_key_leb_trans (a b c : option date) :
  Sql.date_key_leb a b = true -> Sql.date_key_leb b c = true ->
  Sql.date_key_leb a c = true.
Proof.
  destruct a as [a|], b as [b|], c as [c|]; cbn; try congruence.
  rewrite !date_leb_iff. lia.
Qed.

Lemma sorted_map {A B : Type} (f : A -> B) (le : B -> B -> Prop) (l : list A) :
  StronglySorted (fun a b => le (f a) (f b)) l -> StronglySorted le (List.map f l).
Proof.
  induction 1 as [|x l Hl IH Hx]; cbn; constructor; [assumption|].
  now apply List.Forall_map.
Qed.

Lemma views_bits_groups (parse_float : string -> option float) (raw : list raw_row)
    {K : Type} `{EqDecision K} (key : rides_view -> K) :
  Forall (fun kg => 0 <= Sql.sum_int v_Is_Successful (snd kg) <= Sql.count_star (snd kg))
    (Sql.group_by key (List.map view_of_row (clean_data parse_float raw))).
Proof.
  eapply List.Forall_impl;
    [|apply (group_by_Forall key _ _ (clean_data_views_bits parse_float raw))].
  intros [k g] Hg. now apply sum_int_bits.
Qed.

(** X9. The daily summary of a cleaned frame has one row per date of the
    frame, a missing date being a date of its own; the rows come in
    ascending order of date, the missing date first; their Total_Bookings
    add up to the rows of the frame and no row has more Successful_Bookings
    than Total_Bookings. *)
Theorem daily_summary_by_date (parse_float : string -> option float)
    (raw : list raw_row) :
  let cleaned := clean_data parse_float raw in
  let summary := DataProcessorSql.daily_summary_query (List.map view_of_row cleaned) in
  List.NoDup (List.map DailySummary.Date summary)
  /\ (forall d, In d (List.map DailySummary.Date summary)
                <-> In d (List.map (fun r => Date (cols r)) cleaned))
  /\ StronglySorted (fun a b => Sql.date_key_leb a b = true)
       (List.map DailySummary.Date summary)
  /\ List.fold_right Z.add 0 (List.map DailySummary.Total_Bookings summary)
     = Z.of_nat (List.length cleaned)
  /\ Forall (fun d => 0 <= DailySummary.Successful_Bookings d
                        <= DailySummary.Total_Bookings d) summary.
Proof.
  cbv zeta. unfold DataProcessorSql.daily_summary_query.
  set (rides := List.map view_of_row (clean_data parse_float raw)).
  set (leb := fun a b : DailySummary.t =>
                Sql.date_key_leb (DailySummary.Date a) (DailySummary.Date b)).
  set (row_of := fun (k : option date) (g : list rides_view) =>
                   {| DailySummary.Date := k;
                      DailySummary.Total_Bookings := Sql.count_star g;
                      DailySummary.Successful_Bookings := Sql.sum_int v_Is_Successful g;
                      DailySummary.Total_Revenue := Sql.sum (List.map (col Booking_Value) g);
                      DailySummary.Avg_Booking_Value :=
                        Sql.avg (List.map (col Booking_Value) g);
                      DailySummary.Total_Distance :=
                        Sql.sum (List.map (col Ride_Distance) g) |}).
  set (groups := List.map (fun '(k, g) => row_of k g)
                   (Sql.group_by (fun r => Date (v_cols r)) rides)).
  pose proof (sort_by_perm leb groups) as Hperm.
  destruct (group_by_keys (fun r => Date (v_cols r)) row_of DailySummary.Date rides
              (fun k g => eq_refl)) as [Hnd Hkeys].
  fold groups in Hnd, Hkeys.
  split; [|split; [|split; [|split]]].
  - eapply Permutation_NoDup; [|exact Hnd]. now apply Permutation_map.
  - intros d.
    pose proof (Permutation_map DailySummary.Date Hperm) as Hpm.
    transitivity (In d (List.map DailySummary.Date groups)).
    + split; apply Permutation_in; [now apply Permutation_sym | assumption].
    + rewrite Hkeys. unfold rides. now rewrite List.map_map.
  - apply sorted_map. apply sort_by_sorted.
    + intros a b. apply date_key_leb_total.
    + intros a b c. apply date_key_leb_trans.
  - rewrite <- (sum_counts_perm _ _ _ Hperm). unfold groups.
    rewrite (sum_counts_groups _ row_of DailySummary.Total_Bookings rides (fun k g => eq_refl)).
    unfold rides. now rewrite List.length_map.
  - eapply Permutation_Forall; [exact Hperm|]. unfold groups.
    apply List.Forall_map.
    eapply List.Forall_impl; [|apply (views_bits_groups parse_float raw)].
    intros [k g] Hg. exact Hg.
Qed.

Lemma date_leb_refl (d : date) : date_leb d d = true.
Proof. apply date_leb_iff. lia. Qed.

Lemma max_date_cons (v : option date) (vals : list (option date)) :
  Sql.max_date (v :: vals)
  = match v, Sql.max_date vals with
    | Some d, Some m => if date_leb d m then Some m else Some d
    | Some d, None => Some d
    | None, acc => acc
    end.
Proof. reflexivity. Qed.

Lemma max_date_None (vals : list (option date)) (d : date) :
  Sql.max_date vals = None -> ~ In (Some d) vals.
Proof.
  induction vals as [|v vals IH]; [intros _ []|].
  rewrite max_date_cons. destruct v as [x|].
  - destruct (Sql.max_date vals) as [m|]; [destruct (date_leb x m)|]; discriminate.
  - intros Hm [Hin|Hin]; [discriminate | now apply IH].
Qed.

(** [MAX(Date)]: a date of the group that no date of the group exceeds. *)
Lemma max_date_Some (vals : list (option date)) (m : date) :
  Sql.max_date vals = Some m ->
  In (Some m) vals /\ forall d, In (Some d) vals -> date_leb d m = true.
Proof.
  revert m. induction vals as [|v vals IH]; intros m; [discriminate|].
  rewrite max_date_cons. destruct v as [d|].
  - destruct (Sql.max_date vals) as [m0|] eqn:E.
    + destruct (IH m0 eq_refl) as [Hin Hmax].
      destruct (date_leb d m0) eqn:Hd; intros [= <-].
      * split; [now right|]. intros d' [[= <-]|Hd']; [assumption | now apply Hmax].
      * split; [now left|]. intros d' [[= <-]|Hd']; [apply date_leb_refl|].
        specialize (Hmax d' Hd').
        assert (Hmd : date_leb m0 d = true).
        { apply (date_key_leb_total (Some d) (Some m0)). exact Hd. }
        apply (date_key_leb_trans (Some d') (Some m0) (Some d)); assumption.
    + intros [= <-]. split; [now left|]. intros d' [[= <-]|Hd']; [apply date_leb_refl|].
      exfalso. now apply (max_date_None vals d' E).
  - intros Hm. destruct (IH m Hm) as [Hin Hmax]. split; [now right|].
    intros d' [Hd'|Hd']; [discriminate | now apply Hmax].
Qed.

Lemma in_grouped {R K T : Type} `{EqDecision K} (key : R -> K)
    (row_of : K -> list R -> T) (rows : list R) (t : T) :
  In t (List.map (fun '(k, g) => row_of k g) (Sql.group_by key rows)) ->
  exists k, t = row_of k (List.filter (fun r => bool_decide (key r = k)) rows)
            /\ In k (List.map key rows).
Proof.
  intros Hin. apply List.in_map_iff in Hin as ([k g] & <- & Hin).
  destruct (group_by_In key rows k g Hin) as [Hne Hg]. exists k.
  split; [now rewrite <- Hg|].
  destruct g as [|r g]; [contradiction|].
  assert (Hr : In r (List.filter (fun r => bool_decide (key r = k)) rows))
    by (rewrite <- Hg; now left).
  apply List.filter_In in Hr as [Hr Hk]. apply bool_decide_eq_true in Hk.
  rewrite <- Hk. now apply List.in_map.
Qed.

(** X10. The customer summary of a cleaned frame has one row per customer,
    in descending order of Total_Spent; the Total_Bookings add up to the
    rows of the frame; and a Last_Booking_Date is the date of one of the
    customer's bookings which none of the customer's bookings exceeds. *)
Theorem customer_summary_by_customer (parse_float : string -> option float)
    (raw : list raw_row) :
  let cleaned := clean_data parse_float raw in
  let summary := DataProcessorSql.customer_summary_query (List.map view_of_row cleaned) in
  List.NoDup (List.map CustomerSummary.Customer_ID summary)
  /\ Sql.ordered_desc CustomerSummary.Total_Spent summary
  /\ List.fold_right Z.add 0 (List.map CustomerSummary.Total_Bookings summary)
     = Z.of_nat (List.length cleaned)
  /\ forall c last,
       In c summary -> CustomerSummary.Last_Booking_Date c = Some last ->
       (exists r, In r cleaned
                  /\ Customer_ID (cols r) = CustomerSummary.Customer_ID c
                  /\ Date (cols r) = Some last)
       /\ forall r d, In r cleaned ->
                      Customer_ID (cols r) = CustomerSummary.Customer_ID c ->
                      Date (cols r) = Some d -> date_leb d last = true.
Proof.
  cbv zeta. unfold DataProcessorSql.customer_summary_query.
  set (rides := List.map view_of_row (clean_data parse_float raw)).
  set (leb := fun a b : CustomerSummary.t =>
                Sql.real_leb (CustomerSummary.Total_Spent b) (CustomerSummary.Total_Spent a)).
  set (row_of := fun (k : option string) (g : list rides_view) =>
                   {| CustomerSummary.Customer_ID := k;
                      CustomerSummary.Total_Bookings := Sql.count_star g;
                      CustomerSummary.Successful_Bookings := Sql.sum_int v_Is_Successful g;
                      CustomerSummary.Total_Spent := Sql.sum (List.map (col Booking_Value) g);
                      CustomerSummary.Avg_Rating_Given :=
                        Sql.avg (List.map (col Customer_Rating) g);
                      CustomerSummary.Last_Booking_Date :=
                        Sql.max_date (List.map (fun r => Date (v_cols r)) g) |}).
  set (groups := List.map (fun '(k, g) => row_of k g)
                   (Sql.group_by (fun r => Customer_ID (v_cols r)) rides)).
  pose proof (sort_by_perm leb groups) as Hperm.
  destruct (group_by_keys (fun r => Customer_ID (v_cols r)) row_of
              CustomerSummary.Customer_ID rides (fun k g => eq_refl)) as [Hnd _].
  fold groups in Hnd.
  split; [|split; [|split]].
  - eapply Permutation_NoDup; [|exact Hnd]. now apply Permutation_map.
  - apply sort_by_sorted.
    + intros a b. apply real_leb_total.
    + intros a b c Hab Hbc. eapply real_leb_trans; eassumption.
  - rewrite <- (sum_counts_perm _ _ _ Hperm). unfold groups.
    rewrite (sum_counts_groups _ row_of CustomerSummary.Total_Bookings rides
               (fun k g => eq_refl)).
    unfold rides. now rewrite List.length_map.
  - intros c last Hin Hlast.
    apply (Permutation_in _ (Permutation_sym Hperm)) in Hin.
    apply in_grouped in Hin as (k & -> & _). cbn in Hlast |- *.
    apply max_date_Some in Hlast as [Hin Hmax]. split.
    + apply List.in_map_iff in Hin as (v & Hv & Hin).
      apply List.filter_In in Hin as [Hin Hk]. apply bool_decide_eq_true in Hk.
      apply List.in_map_iff in Hin as (r & <- & Hin).
      exists r. repeat split; assumption.
    + intros r d Hin' Hk Hd. apply Hmax. apply List.in_map_iff.
      exists (view_of_row r). split; [exact Hd|].
      apply List.filter_In. split; [now apply List.in_map|].
      now apply bool_decide_eq_true.
Qed.

(** ** Rates *)

Lemma round2_Q_bounds (q : Q) :
  (0 <= q)%Q -> (q <= 100)%Q -> (0 <= round2_Q q)%Q /\ (round2_Q q <= 100)%Q.
Proof.
  intros H0 H100. unfold round2_Q.
  assert (Hb : Qle_bool 0 q = true) by now apply Qle_bool_iff.
  rewrite Hb. rewrite Qred_correct.
  set (z := Qfloor (q * 100 + (1 # 2))).
  assert (Hz0 : 0 <= z).
  { change 0 with (Qfloor 0). apply Qfloor_resp_le.
    apply Qle_trans with (q * 100)%Q.
    - apply Qmult_le_0_compat; [assumption | discriminate].
    - rewrite <- (Qplus_0_r (q * 100)) at 1. apply Qplus_le_r. discriminate. }
  assert (Hz1 : z <= 10000).
  { change 10000 with (Qfloor (10000 + (1 # 2))). apply Qfloor_resp_le.
    apply Qplus_le_l. change 10000%Q with (100 * 100)%Q.
    apply Qmult_le_compat_r; [assumption | discriminate]. }
  clearbody z. unfold Qle. cbn. split; lia.
Qed.

Lemma percentage_bounds (n d : Z) :
  0 <= n <= d -> 0 < d ->
  exists q, SqlExpr.percentage n d = Some (Fin q) /\ (0 <= q)%Q /\ (q <= 100)%Q.
Proof.
  intros Hn Hd. unfold SqlExpr.percentage, Float.div, Float.div_val, of_Z.
  assert (Hd0 : Qeq_bool (inject_Z d) 0 = false).
  { destruct (Qeq_bool (inject_Z d) 0) eqn:E; [|reflexivity].
    apply Qeq_bool_iff in E. unfold Qeq in E. cbn in E. lia. }
  rewrite Hd0. cbn [Sql.round option_map round2].
  eexists. split; [reflexivity|].
  apply round2_Q_bounds; rewrite !Qred_correct.
  - apply Qle_shift_div_l.
    + unfold Qlt. cbn. lia.
    + unfold Qle. cbn. lia.
  - apply Qle_shift_div_r.
    + unfold Qlt. cbn. lia.
    + unfold Qle. cbn. lia.
Qed.

(** ** Queries over a cleaned table *)

(** In a cleaned frame the success flag is the test of the status, and a
    success has a payment method. *)
Lemma cleaned_view_flag (parse_float : string -> option float) (raw : list raw_row)
    (v : rides_view) :
  In v (List.map view_of_row (clean_data parse_float raw)) ->
  v_Is_Successful v = (if status_is_success v then 1 else 0)
  /\ (status_is_success v = true -> has_payment_method v = true).
Proof.
  intros Hin. apply List.in_map_iff in Hin as (r & <- & Hin).
  apply in_clean_data in Hin as (r0 & _ & _ & ->).
  unfold status_is_success, has_payment_method. cbn.
  destruct (eq_Success (replace_null (Booking_Status r0))); cbn.
  - split; [reflexivity|]. intros _.
    now destruct (replace_null (Payment_Method r0)).
  - split; [reflexivity | discriminate].
Qed.

Lemma sum_int_ext_in {R : Type} (f f' : R -> Z) (g : list R) :
  (forall r, In r g -> f r = f' r) -> Sql.sum_int f g = Sql.sum_int f' g.
Proof.
  intros H. unfold Sql.sum_int. f_equal. now apply List.map_ext_in.
Qed.

Lemma group_rows_in {R K : Type} `{EqDecision K} (key : R -> K) (rows : list R)
    (k : K) (g : list R) :
  In (k, g) (Sql.group_by key rows) ->
  g <> [] /\ forall r, In r g -> In r rows /\ key r = k.
Proof.
  intros Hin. destruct (group_by_In key rows k g Hin) as [Hne Hg].
  split; [assumption|]. intros r Hr. rewrite Hg in Hr.
  apply List.filter_In in Hr as [Hr Hk]. now apply bool_decide_eq_true in Hk.
Qed.

Lemma count_star_pos {R : Type} (g : list R) : g <> [] -> 0 < Sql.count_star g.
Proof. unfold Sql.count_star. destruct g; [contradiction | cbn; lia]. Qed.

Lemma sum_int_test_bits {R : Type} (p : R -> bool) (g : list R) :
  0 <= Sql.sum_int (fun r => if p r then 1 else 0) g <= Sql.count_star g.
Proof.
  apply sum_int_bits. apply List.Forall_forall. intros r _.
  destruct (p r); [right | left]; reflexivity.
Qed.

(** On a cleaned table the query of [get_vehicle_performance] gives, up to
    the order of the rows, the vehicle types, the Total_Bookings and the
    Successful_Bookings of the vehicle summary query; its rows are in
    descending order of Total_Revenue and every Success_Rate lies between 0
    and 100. *)
Lemma vehicle_performance_query_cleaned
    (parse_float : string -> option float) (raw : list raw_row) :
  let rides := List.map view_of_row (clean_data parse_float raw) in
  let performance := vehicle_performance_query rides in
  Permutation
    (List.map (fun p => (VehiclePerformance.Vehicle_Type p,
                         VehiclePerformance.Total_Bookings p,
                         VehiclePerformance.Successful_Bookings p)) performance)
    (List.map (fun v => (VehicleSummary.Vehicle_Type v,
                         VehicleSummary.Total_Bookings v,
                         VehicleSummary.Successful_Bookings v))
       (DataProcessorSql.vehicle_summary_query rides))
  /\ Sql.ordered_desc VehiclePerformance.Total_Revenue performance
  /\ Forall (fun p => exists q, VehiclePerformance.Success_Rate p = Some (Fin q)
                                /\ (0 <= q)%Q /\ (q <= 100)%Q) performance.
Proof.
  cbv zeta. unfold vehicle_performance_query, DataProcessorSql.vehicle_summary_query.
  set (rides := List.map view_of_row (clean_data parse_float raw)).
  set (groups := Sql.group_by (fun r => Vehicle_Type (v_cols r)) rides).
  set (leb := fun a b : VehiclePerformance.t =>
                Sql.real_leb (VehiclePerformance.Total_Revenue b)
                             (VehiclePerformance.Total_Revenue a)).
  set (rows := List.map (fun '(k, g) => vehicle_performance_row k g) groups).
  pose proof (sort_by_perm leb rows) as Hperm.
  split; [|split].
  - rewrite <- (Permutation_map _ Hperm). unfold rows.
    rewrite !List.map_map.
    erewrite List.map_ext_in; [reflexivity|].
    intros [k g] Hin. cbn. f_equal.
    apply sum_int_ext_in. intros r Hr. symmetry.
    apply (cleaned_view_flag parse_float raw).
    now apply (group_rows_in _ _ _ _ Hin).
  - apply sort_by_sorted.
    + intros a b. apply real_leb_total.
    + intros a b c Hab Hbc. eapply real_leb_trans; eassumption.
  - eapply Permutation_Forall; [exact Hperm|]. unfold rows.
    apply List.Forall_map, List.Forall_forall. intros [k g] Hin. cbn.
    apply percentage_bounds.
    + apply sum_int_test_bits.
    + apply count_star_pos. now apply (group_rows_in _ _ _ _ Hin).
Qed.

Lemma sum_flags_count (parse_float : string -> option float) (raw : list raw_row)
    (p : rides_view -> bool) :
  (forall v, In v (List.map view_of_row (clean_data parse_float raw)) ->
             v_Is_Successful v = if p v then 1 else 0) ->
  List.fold_right Z.add 0 (List.map Is_Successful (clean_data parse_float raw))
  = Z.of_nat (List.length
                (List.filter p (List.map view_of_row (clean_data parse_float raw)))).
Proof.
  generalize (clean_data parse_float raw). intros cleaned H.
  induction cleaned as [|r cleaned IH]; [reflexivity|].
  cbn [List.map List.fold_right List.filter].
  rewrite IH by (intros v Hv; apply H; now right).
  specialize (H (view_of_row r) (or_introl eq_refl)). cbn in H. rewrite H.
  destruct (p (view_of_row r)); cbn [List.length]; lia.
Qed.

(** On a cleaned table the payment methods account for every successful
    booking. *)
Lemma payment_query_cleaned
    (parse_float : string -> option float) (raw : list raw_row) :
  let cleaned := clean_data parse_float raw in
  let methods := payment_query (List.map view_of_row cleaned) in
  List.fold_right Z.add 0 (List.map PaymentMethods.Total_Transactions methods)
  = List.fold_right Z.add 0 (List.map Is_Successful cleaned)
  /\ List.NoDup (List.map PaymentMethods.Payment_Method methods)
  /\ Forall (fun m => PaymentMethods.Payment_Method m <> None) methods.
Proof.
  cbv zeta. unfold payment_query.
  set (rides := List.map view_of_row (clean_data parse_float raw)).
  set (paid := List.filter (fun r => has_payment_method r && status_is_success r) rides).
  set (with_method := Sql.count_star (List.filter has_payment_method rides)).
  set (row_of := fun (k : option string) (g : list rides_view) =>
                   {| PaymentMethods.Payment_Method := k;
                      PaymentMethods.Total_Transactions := Sql.count_star g;
                      PaymentMethods.Total_Revenue :=
                        Sql.round (Sql.sum (List.map (col Booking_Value) g));
                      PaymentMethods.Avg_Transaction_Value :=
                        Sql.round (Sql.avg (List.map (col Booking_Value) g));
                      PaymentMethods.Usage_Percentage :=
                        SqlExpr.percentage (Sql.count_star g) with_method |}).
  set (leb := fun a b : PaymentMethods.t =>
                Sql.real_leb (PaymentMethods.Total_Revenue b)
                             (PaymentMethods.Total_Revenue a)).
  set (rows := List.map (fun '(k, g) => row_of k g)
                 (Sql.group_by (fun r => Payment_Method (v_cols r)) paid)).
  pose proof (sort_by_perm leb rows) as Hperm.
  destruct (group_by_keys (fun r => Payment_Method (v_cols r)) row_of
              PaymentMethods.Payment_Method paid (fun k g => eq_refl)) as [Hnd Hkeys].
  fold rows in Hnd, Hkeys.
  split; [|split].
  - rewrite <- (sum_counts_perm _ _ _ Hperm). unfold rows.
    rewrite (sum_counts_groups _ row_of PaymentMethods.Total_Transactions paid
               (fun k g => eq_refl)).
    rewrite (sum_flags_count parse_float raw
               (fun r => has_payment_method r && status_is_success r)).
    + reflexivity.
    + intros v Hv. destruct (cleaned_view_flag parse_float raw v Hv) as [Hflag Hpay].
      rewrite Hflag. destruct (status_is_success v).
      * now rewrite Hpay.
      * now rewrite andb_false_r.
  - eapply Permutation_NoDup; [|exact Hnd]. now apply Permutation_map.
  - eapply Permutation_Forall; [exact Hperm|].
    apply List.Forall_forall. intros m Hm Hnone.
    assert (Hin : In None (List.map PaymentMethods.Payment_Method rows))
      by (rewrite <- Hnone; now apply List.in_map).
    apply Hkeys in Hin. apply List.in_map_iff in Hin as (v & Hv & Hin).
    apply List.filter_In in Hin as [_ Hp]. apply andb_true_iff in Hp as [Hp _].
    unfold has_payment_method in Hp. rewrite Hv in Hp. discriminate.
Qed.

(** *** The same, on the database a run has written *)

Lemma rides_after_create_database (parse_float : string -> option float)
    (sheet : list raw_row) (conn : database) :
  select_rides
    (snd (OlaDataProcessor.create_database (cleaned_processor parse_float sheet) conn))
  = Some (List.map view_of_row (clean_data parse_float sheet)).
Proof.
  rewrite (create_database_cleaned _ _ conn (cleaned_processor_clean_data parse_float sheet)).
  cbn [snd]. rewrite select_rides_rebuilt. reflexivity.
Qed.

(** X11. Load a sheet, clean it and write the database.  When there was no
    vehicle summary before, [get_vehicle_performance] then gives, up to the
    order of the rows, the vehicle types, Total_Bookings and
    Successful_Bookings of the [vehicle_summary] table; in any case its rows
    are in descending order of Total_Revenue and every Success_Rate lies
    between 0 and 100. *)
Theorem vehicle_performance_agrees_with_summary
    (parse_float : string -> option float) (sheet : list raw_row) (conn : database) :
  let conn' :=
    snd (OlaDataProcessor.create_database (cleaned_processor parse_float sheet) conn) in
  let performance := get_vehicle_performance conn' in
  Sql.ordered_desc VehiclePerformance.Total_Revenue performance
  /\ Forall (fun p => exists q, VehiclePerformance.Success_Rate p = Some (Fin q)
                                /\ (0 <= q)%Q /\ (q <= 100)%Q) performance
  /\ (conn !! "vehicle_summary"%string = None ->
      exists summary,
        conn' !! "vehicle_summary"%string = Some (VehicleT summary)
        /\ Permutation
             (List.map (fun p => (VehiclePerformance.Vehicle_Type p,
                                  VehiclePerformance.Total_Bookings p,
                                  VehiclePerformance.Successful_Bookings p)) performance)
             (List.map (fun v => (VehicleSummary.Vehicle_Type v,
                                  VehicleSummary.Total_Bookings v,
                                  VehicleSummary.Successful_Bookings v)) summary)).
Proof.
  cbv zeta. unfold get_vehicle_performance.
  rewrite frame_query_rides, rides_after_create_database.
  destruct (vehicle_performance_query_cleaned parse_float sheet) as (Hperm & Hord & Hrate).
  split; [exact Hord|]. split; [exact Hrate|].
  intros Hnone. eexists. split; [|exact Hperm].
  rewrite (create_database_cleaned _ _ conn (cleaned_processor_clean_data parse_float sheet)).
  cbn [snd]. rewrite !lookup_create_if_missing.
  rewrite !bool_decide_eq_false_2 by discriminate.
  rewrite bool_decide_eq_true_2 by reflexivity.
  rewrite lookup_insert_ne by discriminate. rewrite Hnone. reflexivity.
Qed.

(** X12. Load a sheet, clean it and write the database: the payment
    methods of [get_revenue_analysis] then account for every successful
    booking.  Their Total_Transactions add up to the number of successes of
    the cleaned frame, each method is listed once and none is missing. *)
Theorem payment_methods_cover_successes
    (parse_float : string -> option float) (sheet : list raw_row) (conn : database) :
  let cleaned := clean_data parse_float sheet in
  let conn' :=
    snd (OlaDataProcessor.create_database (cleaned_processor parse_float sheet) conn) in
  let methods := RevenueAnalysis.payment_methods (get_revenue_analysis conn') in
  List.fold_right Z.add 0 (List.map PaymentMethods.Total_Transactions methods)
  = List.fold_right Z.add 0 (List.map Is_Successful cleaned)
  /\ List.NoDup (List.map PaymentMethods.Payment_Method methods)
  /\ Forall (fun m => PaymentMethods.Payment_Method m <> None) methods.
Proof.
  cbv zeta. unfold get_revenue_analysis. cbn [RevenueAnalysis.payment_methods].
  rewrite frame_query_rides, rides_after_create_database.
  apply payment_query_cleaned.
Qed.

(** *** Cancellations *)

Lemma prefix_lower (p s : string) :
  String.prefix p s = true ->
  String.prefix (SqlExpr.lower p) (SqlExpr.lower s) = true.
Proof.
  revert p. induction s as [|b s IH]; intros [|a p]; cbn; try congruence.
  destruct (ascii_dec a b) as [->|Hne]; [|discriminate].
  intros Hp. destruct (ascii_dec _ _) as [_|Hne]; [now apply IH | contradiction].
Qed.

(** What [str.contains] finds, [LIKE] finds too. *)
Lemma contains_lower (pat s : string) :
  contains pat s = true -> contains (SqlExpr.lower pat) (SqlExpr.lower s) = true.
Proof.
  induction s as [|b s IH]; cbn [contains SqlExpr.lower].
  - rewrite !orb_false_r. apply prefix_lower.
  - rewrite !orb_true_iff. intros [Hp|Hc].
    + left. now apply (prefix_lower pat (String b s)).
    + right. now apply IH.
Qed.

Lemma str_contains_like (word : string) (status : option string) :
  str_contains word status = true -> SqlExpr.like_contains word status = true.
Proof. destruct status as [s|]; cbn; [apply contains_lower | discriminate]. Qed.

Lemma length_filter_le {A : Type} (p q : A -> bool) (l : list A) :
  (forall x, In x l -> p x = true -> q x = true) ->
  (List.length (List.filter p l) <= List.length (List.filter q l))%nat.
Proof.
  induction l as [|x l IH]; intros H; cbn; [lia|].
  assert (IH' := IH (fun y Hy => H y (or_intror Hy))).
  destruct (p x) eqn:Ep.
  - rewrite (H x (or_introl eq_refl) Ep). cbn. lia.
  - destruct (q x); cbn; lia.
Qed.

Lemma sum_bits_count {A : Type} (flag : A -> Z) (p : A -> bool) (l : list A) :
  (forall x, In x l -> flag x = if p x then 1 else 0) ->
  List.fold_right Z.add 0 (List.map flag l)
  = Z.of_nat (List.length (List.filter p l)).
Proof.
  induction l as [|x l IH]; intros H; [reflexivity|].
  cbn [List.map List.fold_right List.filter].
  rewrite IH by (intros y Hy; apply H; now right).
  rewrite (H x (or_introl eq_refl)). destruct (p x); cbn [List.length]; lia.
Qed.

(** The reasons listed for a word count every booking whose status holds
    the word as pandas looks for it. *)
Lemma reasons_query_counts (parse_float : string -> option float)
    (raw : list raw_row) (word : string)
    (reason : columns (option float) -> option string) (flag : row -> Z) :
  (forall r, In r (clean_data parse_float raw) ->
             flag r = astype_int (str_contains word (Booking_Status (cols r)))) ->
  List.fold_right Z.add 0 (List.map flag (clean_data parse_float raw))
  <= List.fold_right Z.add 0
       (List.map Reason.Count
          (reasons_query word reason
             (List.map view_of_row (clean_data parse_float raw)))).
Proof.
  intros Hflag. unfold reasons_query.
  set (rides := List.map view_of_row (clean_data parse_float raw)).
  set (liked := List.filter _ rides).
  set (row_of := fun (k : option string) (g : list rides_view) =>
                   {| Reason.Reason := SqlExpr.coalesce k "Not Specified";
                      Reason.Count := Sql.count_star g |}).
  set (leb := fun a b : Reason.t => Reason.Count b <=? Reason.Count a).
  rewrite <- (sum_counts_perm _ _ _ (sort_by_perm leb _)).
  rewrite (sum_counts_groups _ row_of Reason.Count liked (fun k g => eq_refl)).
  rewrite (sum_bits_count flag
             (fun r => str_contains word (Booking_Status (cols r)))).
  - apply inj_le. unfold liked, rides.
    rewrite filter_map_comm, List.length_map.
    apply length_filter_le. intros r _. apply str_contains_like.
  - intros r Hr. rewrite (Hflag r Hr). now destruct (str_contains _ _).
Qed.

Lemma status_category_of_flags (parse_float : string -> option float)
    (raw : list raw_row) (r : row) :
  In r (clean_data parse_float raw) ->
  (Is_Successful r = 1 -> status_category (view_of_row r) = "Successful"%string)
  /\ (Is_Customer_Cancel r = 1 ->
      status_category (view_of_row r) = "Cancelled by Customer"%string)
  /\ (Is_Driver_Cancel r = 1 ->
      status_category (view_of_row r) = "Cancelled by Driver"%string
      \/ status_category (view_of_row r) = "Cancelled by Customer"%string).
Proof.
  intros Hin. apply in_clean_data in Hin as (r0 & _ & _ & ->).
  unfold status_category. cbn [view_of_row v_cols].
  rewrite clean_row_Booking_Status. cbn [clean_row Is_Successful Is_Customer_Cancel
                                          Is_Driver_Cancel coerce Booking_Status].
  set (status := replace_null (Booking_Status r0)).
  destruct (eq_Success status) eqn:Es.
  - apply eq_Success_iff in Es. rewrite Es. cbn. repeat split; discriminate.
  - split; [discriminate|]. split.
    + intros Hc. destruct (str_contains "Customer" status) eqn:E; [|discriminate].
      now rewrite (str_contains_like _ _ E).
    + intros Hd. destruct (str_contains "Driver" status) eqn:E; [|discriminate].
      destruct (SqlExpr.like_contains "Customer" status); [now right|].
      rewrite (str_contains_like _ _ E). now left.
Qed.

(** X13. Load a sheet, clean it and write the database.  In
    [get_cancellation_analysis] the categories of the overall table are
    listed once each and their Counts add up to the rows of the cleaned
    frame; a row with Is_Successful 1 falls under 'Successful', a row with
    Is_Customer_Cancel 1 under 'Cancelled by Customer', a row with
    Is_Driver_Cancel 1 under one of the two cancellation categories; and the
    reasons listed for customers and for drivers count at least the rows
    with the respective flag. *)
Theorem cancellation_analysis_counts
    (parse_float : string -> option float) (sheet : list raw_row) (conn : database) :
  let cleaned := clean_data parse_float sheet in
  let conn' :=
    snd (OlaDataProcessor.create_database (cleaned_processor parse_float sheet) conn) in
  let analysis := get_cancellation_analysis conn' in
  List.fold_right Z.add 0
    (List.map StatusCategory.Count (CancellationAnalysis.overall analysis))
  = Z.of_nat (List.length cleaned)
  /\ List.NoDup
       (List.map StatusCategory.Status_Category (CancellationAnalysis.overall analysis))
  /\ (forall c,
        In c (CancellationAnalysis.overall analysis) ->
        StatusCategory.Count c
        = Z.of_nat (List.length
            (List.filter
               (fun r => bool_decide (status_category (view_of_row r)
                                      = StatusCategory.Status_Category c)) cleaned)))
  /\ (forall r,
        In r cleaned ->
        (Is_Successful r = 1 -> status_category (view_of_row r) = "Successful"%string)
        /\ (Is_Customer_Cancel r = 1 ->
            status_category (view_of_row r) = "Cancelled by Customer"%string)
        /\ (Is_Driver_Cancel r = 1 ->
            status_category (view_of_row r) = "Cancelled by Driver"%string
            \/ status_category (view_of_row r) = "Cancelled by Customer"%string))
  /\ List.fold_right Z.add 0 (List.map Is_Customer_Cancel cleaned)
     <= List.fold_right Z.add 0
          (List.map Reason.Count (CancellationAnalysis.customer_reasons analysis))
  /\ List.fold_right Z.add 0 (List.map Is_Driver_Cancel cleaned)
     <= List.fold_right Z.add 0
          (List.map Reason.Count (CancellationAnalysis.driver_reasons analysis)).
Proof.
  cbv zeta. unfold get_cancellation_analysis.
  cbn [CancellationAnalysis.overall CancellationAnalysis.customer_reasons
       CancellationAnalysis.driver_reasons].
  rewrite !frame_query_rides, rides_after_create_database.
  set (cleaned := clean_data parse_float sheet).
  set (rides := List.map view_of_row cleaned).
  unfold overall_cancellation_query.
  set (row_of := fun (k : string) (g : list rides_view) =>
                   {| StatusCategory.Status_Category := k;
                      StatusCategory.Count := Sql.count_star g;
                      StatusCategory.Percentage :=
                        SqlExpr.percentage (Sql.count_star g) (Sql.count_star rides) |}).
  set (leb := fun a b : StatusCategory.t => StatusCategory.Count b <=? StatusCategory.Count a).
  set (rows := List.map (fun '(k, g) => row_of k g) (Sql.group_by status_category rides)).
  pose proof (sort_by_perm leb rows) as Hperm.
  destruct (group_by_keys status_category row_of StatusCategory.Status_Category rides
              (fun k g => eq_refl)) as [Hnd _].
  fold rows in Hnd.
  split; [|split; [|split; [|split; [|split]]]].
  - rewrite <- (sum_counts_perm _ _ _ Hperm). unfold rows.
    rewrite (sum_counts_groups _ row_of StatusCategory.Count rides (fun k g => eq_refl)).
    unfold rides. now rewrite List.length_map.
  - eapply Permutation_NoDup; [|exact Hnd]. now apply Permutation_map.
  - intros c Hc. apply (Permutation_in _ (Permutation_sym Hperm)) in Hc.
    apply in_grouped in Hc as (k & -> & _). cbn.
    unfold Sql.count_star, rides. now rewrite filter_map_comm, List.length_map.
  - intros r Hr. now apply (status_category_of_flags parse_float sheet).
  - apply (reasons_query_counts parse_float sheet "Customer"
             Canceled_Rides_by_Customer Is_Customer_Cancel).
    intros r Hr. apply in_clean_data in Hr as (r0 & _ & _ & ->). reflexivity.
  - apply (reasons_query_counts parse_float sheet "Driver"
             Canceled_Rides_by_Driver Is_Driver_Cancel).
    intros r Hr. apply in_clean_data in Hr as (r0 & _ & _ & ->). reflexivity.
Qed.

(** pandas looks for 'Customer' as written, SQLite's [LIKE] without regard
    to case. *)
Example lower_case_status :
  let r := clean_row no_parse
             (booking "B1" "C1" "Auto" "cancelled by customer" (num 100) NaN) in
  Is_Customer_Cancel r = 0
  /\ status_category (view_of_row r) = "Cancelled by Customer"%string.
Proof. split; reflexivity. Qed.

(** ** Conditional aggregates *)

Lemma non_null_when_successful (x : rides_view -> option float) (g : list rides_view) :
  Sql.non_null (List.map (when_successful x) g)
  = Sql.non_null (List.map x (successful_rows g)).
Proof.
  unfold when_successful, successful_rows.
  induction g as [|r g IH]; [reflexivity|]. cbn.
  destruct (v_Is_Successful r =? 1); cbn; [destruct (x r)|]; now rewrite IH.
Qed.

(** [AVG(CASE WHEN Is_Successful = 1 THEN x END)] is the average of [x]
    over the successes. *)
Lemma avg_when_successful (x : rides_view -> option float) (g : list rides_view) :
  Sql.avg (List.map (when_successful x) g) = Sql.avg (List.map x (successful_rows g)).
Proof. unfold Sql.avg. now rewrite non_null_when_successful. Qed.

Lemma total_canonical (xs : list float) : canonical (Sql.total xs).
Proof.
  induction xs as [|x xs IH]; [reflexivity|]. cbn [Sql.total].
  destruct (Sql.total xs) as [[b| |]|], x as [a| |]; cbn; trivial.
  apply Qcanon.Qred_involutive.
Qed.

Lemma add_zero (t : option float) :
  canonical t -> Float.add (Some (Fin 0)) t = t.
Proof.
  destruct t as [[b| |]|]; cbn; trivial. intros Hb. do 2 f_equal.
  rewrite <- Hb at 2. apply Qred_complete. apply Qplus_0_l.
Qed.

Lemma total_else_0 (x : rides_view -> option float) (g : list rides_view) :
  Sql.total (Sql.non_null (List.map (when_successful_else_0 x) g))
  = Sql.total (Sql.non_null (List.map x (successful_rows g))).
Proof.
  unfold when_successful_else_0, successful_rows.
  induction g as [|r g IH]; [reflexivity|]. cbn [List.map List.filter].
  destruct (v_Is_Successful r =? 1); cbn [List.map Sql.non_null].
  - destruct (x r); cbn [Sql.non_null Sql.total]; now rewrite IH.
  - cbn [Sql.total]. rewrite IH. apply add_zero, total_canonical.
Qed.

(** [SUM(CASE WHEN Is_Successful = 1 THEN x ELSE 0 END)]. *)
Lemma sum_when_successful_else_0 (x : rides_view -> option float) (g : list rides_view) :
  Sql.sum (List.map (when_successful_else_0 x) g) = total_of_successes x g.
Proof.
  unfold Sql.sum, total_of_successes.
  destruct (List.forallb _ g) eqn:Hall.
  - assert (Hnil : Sql.non_null (List.map (when_successful_else_0 x) g) = []).
    { induction g as [|r g IH]; [reflexivity|]. cbn in Hall.
      apply andb_true_iff in Hall as [Hr Hall]. apply andb_true_iff in Hr as [Hs Hx].
      cbn. unfold when_successful_else_0 at 1. rewrite Hs.
      destruct (x r); [discriminate|]. now apply IH. }
    now rewrite Hnil.
  - rewrite <- total_else_0.
    destruct (Sql.non_null (List.map (when_successful_else_0 x) g)) eqn:Hn;
      [|reflexivity].
    exfalso. assert (Htrue : List.forallb
                (fun r => (v_Is_Successful r =? 1) && isna (x r)) g = true);
      [|congruence].
    clear Hall. induction g as [|r g IH]; [reflexivity|]. cbn in Hn |- *.
    unfold when_successful_else_0 in Hn at 1.
    destruct (v_Is_Successful r =? 1); [|discriminate].
    destruct (x r); [discriminate|]. cbn. now apply IH.
Qed.

(** X14. Every row of the vehicle summary of run_project.py stands for the
    rows of one vehicle type, of which there is at least one.  Its
    Total_Bookings counts all of them; Avg_Distance, Avg_Driver_Rating and
    Avg_Customer_Rating are the rounded averages over the successes among
    them; Total_Revenue and Total_Distance are the rounded totals over the
    successes, 0 when no success has a value; Avg_Booking_Value is the
    rounded average over all of them. *)
Theorem project_vehicle_summary_rows (rides : list rides_view) (v : VehicleSummary.t) :
  In v (ProjectSql.vehicle_summary_query rides) ->
  let g := List.filter
             (fun r => bool_decide (Vehicle_Type (v_cols r) = VehicleSummary.Vehicle_Type v))
             rides in
  g <> []
  /\ VehicleSummary.Total_Bookings v = Z.of_nat (List.length g)
  /\ VehicleSummary.Successful_Bookings v = Sql.sum_int v_Is_Successful g
  /\ VehicleSummary.Avg_Distance v
     = Sql.round (Sql.avg (List.map (col Ride_Distance) (successful_rows g)))
  /\ VehicleSummary.Avg_Driver_Rating v
     = Sql.round (Sql.avg (List.map (col Driver_Ratings) (successful_rows g)))
  /\ VehicleSummary.Avg_Customer_Rating v
     = Sql.round (Sql.avg (List.map (col Customer_Rating) (successful_rows g)))
  /\ VehicleSummary.Total_Revenue v
     = Sql.round (total_of_successes (col Booking_Value) g)
  /\ VehicleSummary.Total_Distance v
     = Sql.round (total_of_successes (col Ride_Distance) g)
  /\ VehicleSummary.Avg_Booking_Value v
     = Sql.round (Sql.avg (List.map (col Booking_Value) g)).
Proof.
  intros Hin. unfold ProjectSql.vehicle_summary_query in Hin.
  apply List.in_map_iff in Hin as ([k g] & <- & Hin).
  destruct (group_by_In _ rides k g Hin) as [Hne Hg]. cbv zeta. cbn.
  rewrite <- Hg.
  rewrite !avg_when_successful, !sum_when_successful_else_0.
  repeat split. exact Hne.
Qed.

Lemma project_vehicle_summary_rows_witness :
  let rides :=
    List.map view_of_project_row (List.map (process_row no_parse) mixed_sheet) in
  let v := {| VehicleSummary.Vehicle_Type := Some "Auto"%string;
              VehicleSummary.Total_Bookings := 2;
              VehicleSummary.Successful_Bookings := 1;
              VehicleSummary.Avg_Booking_Value := Some (Fin 200);
              VehicleSummary.Total_Revenue := Some (Fin 100);
              VehicleSummary.Avg_Distance := Some (Fin 10);
              VehicleSummary.Total_Distance := Some (Fin 10);
              VehicleSummary.Avg_Driver_Rating := None;
              VehicleSummary.Avg_Customer_Rating := None |} in
  In v (ProjectSql.vehicle_summary_query rides)
  /\ VehicleSummary.Total_Revenue v
     = Sql.round (total_of_successes (col Booking_Value)
         (List.filter
            (fun r => bool_decide (Vehicle_Type (v_cols r)
                                   = VehicleSummary.Vehicle_Type v)) rides)).
Proof.
  cbv zeta.
  match goal with |- In ?v ?l /\ _ => assert (Hin : In v l) end.
  { vm_compute. left. reflexivity. }
  split; [exact Hin|].
  apply (project_vehicle_summary_rows _ _ Hin).
Defined.

(** ** The rows of the top-customers query *)

Lemma total_zeros (n : nat) : Sql.total (List.repeat (Fin 0) n) = Some (Fin 0).
Proof. induction n as [|n IH]; [reflexivity|]. cbn [List.repeat Sql.total]. now rewrite IH. Qed.

(** A customer without a success spends nothing. *)
Lemma no_success_no_spending (g : list rides_view) :
  (forall r, In r g -> BusinessQueries.is_success r = false) ->
  gt0 (Sql.round (Sql.sum (List.map
         (fun r => if BusinessQueries.is_success r
                   then Booking_Value (v_cols r) else Some (Fin 0)) g))) = false.
Proof.
  intros Hno.
  assert (Hz : Sql.non_null (List.map
                 (fun r => if BusinessQueries.is_success r
                           then Booking_Value (v_cols r) else Some (Fin 0)) g)
               = List.repeat (Fin 0) (List.length g)).
  { induction g as [|r g IH]; [reflexivity|]. cbn.
    rewrite (Hno r (or_introl eq_refl)). cbn.
    rewrite IH by (intros r' Hr'; apply Hno; now right). reflexivity. }
  unfold Sql.sum. rewrite Hz. destruct g as [|r g]; [reflexivity|].
  cbn [List.length List.repeat]. change (Fin 0 :: List.repeat (Fin 0) (List.length g))
    with (List.repeat (Fin 0) (S (List.length g))).
  rewrite total_zeros. reflexivity.
Qed.

Lemma sum_int_test_pos {R : Type} (p : R -> bool) (g : list R) (r : R) :
  In r g -> p r = true -> 1 <= Sql.sum_int (fun r => if p r then 1 else 0) g.
Proof.
  unfold Sql.sum_int.
  induction g as [|x g IH]; intros Hin Hp; [contradiction|].
  cbn [List.map List.fold_right].
  pose proof (sum_int_test_bits p g) as Hb. unfold Sql.sum_int in Hb.
  destruct Hin as [->|Hin].
  - rewrite Hp. lia.
  - specialize (IH Hin Hp). destruct (p x); lia.
Qed.

Lemma forall_or_exists {R : Type} (p : R -> bool) (g : list R) :
  (forall r, In r g -> p r = false) \/ exists r, In r g /\ p r = true.
Proof.
  induction g as [|x g [IH|(r & Hr & Hp)]].
  - left. intros r [].
  - destruct (p x) eqn:E.
    + right. exists x. split; [now left | assumption].
    + left. intros r [<-|Hr]; [assumption | now apply IH].
  - right. exists r. split; [now right | assumption].
Qed.

Lemma NoDup_map_filter {A B : Type} (f : A -> B) (p : A -> bool) (l : list A) :
  List.NoDup (List.map f l) -> List.NoDup (List.map f (List.filter p l)).
Proof.
  induction l as [|x l IH]; cbn; [trivial|]. intros Hnd.
  apply List.NoDup_cons_iff in Hnd as [Hnin Hnd].
  destruct (p x); cbn; [|now apply IH].
  apply List.NoDup_cons_iff. split; [|now apply IH].
  intros Hin. apply Hnin. apply List.in_map_iff in Hin as (y & Hy & Hin).
  apply List.filter_In in Hin as [Hin _]. apply List.in_map_iff. now exists y.
Qed.

Lemma NoDup_firstn {A : Type} (n : nat) (l : list A) :
  List.NoDup l -> List.NoDup (List.firstn n l).
Proof.
  revert l. induction n as [|n IH]; intros [|x l] Hnd; cbn; try constructor.
  - apply List.NoDup_cons_iff in Hnd as [Hnin Hnd].
    intros Hin. apply Hnin. now apply (in_firstn n).
  - apply IH. now apply List.NoDup_cons_iff in Hnd as [_ Hnd].
Qed.

Lemma in_limit {A : Type} (n : Z) (l : list A) (x : A) :
  In x (Sql.limit n l) -> In x l.
Proof. unfold Sql.limit. destruct (n <? 0); [trivial | apply in_firstn]. Qed.

(** The customers [HAVING Total_Spent > 0] keeps. *)
Lemma having_spent_rows (rides : list rides_view) (c : TopCustomers.t) :
  In c (BusinessQueries.having_spent (BusinessQueries.customer_totals rides)) ->
  positive (TopCustomers.Total_Spent c)
  /\ 1 <= TopCustomers.Successful_Bookings c <= TopCustomers.Total_Bookings c
  /\ exists q, TopCustomers.Success_Rate c = Some (Fin q) /\ (0 <= q)%Q /\ (q <= 100)%Q.
Proof.
  intros Hin. apply List.filter_In in Hin as [Hin Hpos].
  unfold BusinessQueries.customer_totals in Hin.
  apply List.in_map_iff in Hin as ([k g] & <- & Hin).
  destruct (group_rows_in _ _ _ _ Hin) as [Hne _].
  cbn in Hpos |- *.
  pose proof (sum_int_test_bits BusinessQueries.is_success g) as Hbits.
  assert (Hone : 1 <= Sql.sum_int
                        (fun r => if BusinessQueries.is_success r then 1 else 0) g).
  { destruct (forall_or_exists BusinessQueries.is_success g) as [Hno|(r & Hr & Hp)].
    - rewrite (no_success_no_spending g Hno) in Hpos. discriminate.
    - now apply (sum_int_test_pos _ g r). }
  split; [now apply gt0_positive|]. split; [lia|].
  apply percentage_bounds; [lia|]. now apply count_star_pos.
Qed.

Lemma customer_totals_ids (rides : list rides_view) :
  List.NoDup (List.map TopCustomers.Customer_ID (BusinessQueries.customer_totals rides)).
Proof.
  unfold BusinessQueries.customer_totals. rewrite List.map_map.
  erewrite List.map_ext; [apply (group_by_groups_of _ rides)|].
  now intros [k g].
Qed.

(** X15. With a limit that is not negative, [get_top_customers] returns at
    most that many rows and no customer twice; every customer it returns has
    a Total_Spent above 0, at least one successful booking, no more
    successful bookings than bookings and a Success_Rate between 0 and 100.
    The database is left as it is. *)
Theorem top_customers_rows (conn : database) (limit : Z)
    (res : outcome TopCustomers.t * database) :
  0 <= limit ->
  BusinessQueries.get_top_customers conn limit res ->
  exists df,
    res = (Returned df, conn)
    /\ Z.of_nat (List.length df) <= limit
    /\ List.NoDup (List.map TopCustomers.Customer_ID df)
    /\ Forall (fun c =>
                 positive (TopCustomers.Total_Spent c)
                 /\ 1 <= TopCustomers.Successful_Bookings c <= TopCustomers.Total_Bookings c
                 /\ exists q, TopCustomers.Success_Rate c = Some (Fin q)
                              /\ (0 <= q)%Q /\ (q <= 100)%Q) df.
Proof.
  intros Hlimit (run & Hq & ->). unfold BusinessQueries.top_customers_query in Hq.
  assert (Hempty : exists df : list TopCustomers.t,
             (Returned [], conn) = (Returned df, conn)
             /\ Z.of_nat (List.length df) <= limit
             /\ List.NoDup (List.map TopCustomers.Customer_ID df)
             /\ Forall (fun c =>
                   positive (TopCustomers.Total_Spent c)
                   /\ 1 <= TopCustomers.Successful_Bookings c
                        <= TopCustomers.Total_Bookings c
                   /\ exists q, TopCustomers.Success_Rate c = Some (Fin q)
                                /\ (0 <= q)%Q /\ (q <= 100)%Q) df).
  { exists []. cbn. repeat split; [lia | constructor | constructor]. }
  destruct (BusinessQueries.binds limit); [|subst run; exact Hempty].
  destruct (select_rides conn) as [rides|]; [|subst run; exact Hempty].
  destruct Hq as (sorted & [Hperm Hord] & ->).
  exists (Sql.limit limit sorted). split; [reflexivity|]. split; [|split].
  - unfold Sql.limit. destruct (limit <? 0) eqn:E; [apply Z.ltb_lt in E; lia|].
    pose proof (List.firstn_le_length (Z.to_nat limit) sorted). lia.
  - rewrite limit_map. unfold Sql.limit.
    assert (Hnd : List.NoDup (List.map TopCustomers.Customer_ID sorted)).
    { eapply Permutation_NoDup; [apply Permutation_map; exact Hperm|].
      apply NoDup_map_filter, customer_totals_ids. }
    destruct (limit <? 0); [exact Hnd | now apply NoDup_firstn].
  - apply List.Forall_forall. intros c Hc. apply in_limit in Hc.
    apply (Permutation_in _ (Permutation_sym Hperm)) in Hc.
    now apply (having_spent_rows rides).
Qed.

Lemma top_customers_rows_witness :
  0 <= 1
  /\ BusinessQueries.get_top_customers tied 1 (Returned [spent_100 "C1"], tied)
  /\ exists df,
       (Returned [spent_100 "C1"], tied) = (Returned df, tied)
       /\ Z.of_nat (List.length df) <= 1
       /\ List.NoDup (List.map TopCustomers.Customer_ID df)
       /\ Forall (fun c =>
                    positive (TopCustomers.Total_Spent c)
                    /\ 1 <= TopCustomers.Successful_Bookings c
                         <= TopCustomers.Total_Bookings c
                    /\ exists q, TopCustomers.Success_Rate c = Some (Fin q)
                                 /\ (0 <= q)%Q /\ (q <= 100)%Q) df.
Proof.
  assert (Hres : BusinessQueries.get_top_customers tied 1
                   (Returned [spent_100 "C1"], tied)).
  { apply (tied_result 1 [spent_100 "C1"; spent_100 "C2"]);
      [reflexivity | reflexivity | apply tied_ordered]. }
  split; [lia|]. split; [exact Hres|].
  apply (top_customers_rows tied 1 _ ltac:(lia) Hres).
Defined.

(** ** The figures of [validate_database_integrity] *)

Lemma sum_when_cases {R : Type} (p : R -> bool) (rows : list R) :
  match rows with
  | [] => SqlExpr.sum_when p rows = None
  | _ => exists n, SqlExpr.sum_when p rows = Some n /\ 0 <= n <= Sql.count_star rows
  end.
Proof.
  destruct rows as [|r rows]; [reflexivity|].
  eexists. split; [reflexivity|]. apply sum_int_test_bits.
Qed.

(** X16. When [rides] can be queried, the null check of
    [validate_database_integrity] counts the rows of the table; over a table
    without rows every null count is NULL, and over a table with rows every
    null count is a number between 0 and the number of rows. *)
Theorem null_check_counts (conn : database) (rides : list rides_view) :
  select_rides conn = Some rides ->
  exists checks,
    ValidationResults.data_quality_rides (validate_database_integrity conn) = Some checks
    /\ NullValues.total_rows (RidesValidation.null_values checks)
       = Z.of_nat (List.length rides)
    /\ Forall
         (fun c =>
            match rides with
            | [] => c = None
            | _ => exists n, c = Some n /\ 0 <= n <= Z.of_nat (List.length rides)
            end)
         (null_counts (RidesValidation.null_values checks)).
Proof.
  intros Hr. destruct (validate_rides conn rides Hr) as (Hq & _ & _).
  eexists. split; [exact Hq|]. cbn. split; [reflexivity|].
  unfold null_counts. cbn.
  repeat apply List.Forall_cons; try apply List.Forall_nil;
    match goal with
    | |- context [SqlExpr.sum_when ?p rides] =>
        pose proof (sum_when_cases p rides) as H; destruct rides; exact H
    end.
Qed.

Lemma null_check_counts_witness :
  select_rides empty_rides = Some []
  /\ exists checks,
       ValidationResults.data_quality_rides (validate_database_integrity empty_rides)
       = Some checks
       /\ NullValues.total_rows (RidesValidation.null_values checks) = 0
       /\ Forall (fun c => c = None) (null_counts (RidesValidation.null_values checks)).
Proof.
  split; [reflexivity|].
  destruct (null_check_counts empty_rides [] eq_refl) as (checks & Hq & Ht & Hall).
  exists checks. repeat split; assumption.
Defined.

Lemma min_date_In (vals : list (option date)) (m : date) :
  SqlExpr.min_date vals = Some m -> In (Some m) vals.
Proof.
  revert m. induction vals as [|v vals IH]; intros m; [discriminate|].
  change (SqlExpr.min_date (v :: vals))
    with (match v, SqlExpr.min_date vals with
          | Some d, Some m => if date_leb d m then Some d else Some m
          | Some d, None => Some d
          | None, acc => acc
          end).
  destruct v as [d|].
  - destruct (SqlExpr.min_date vals) as [m0|].
    + destruct (date_leb d m0); intros [= <-]; [now left | right; now apply IH].
    + intros [= <-]. now left.
  - intros Hm. right. now apply IH.
Qed.

(** X17. When [rides] can be queried, the summary of
    [validate_database_integrity] counts the rows of the table, at most as
    many distinct customers and at most as many distinct vehicle types; its
    earliest date is not after its latest; and its list of vehicle types, in
    descending order of revenue, names each type once, the bookings adding
    up to the rows of the table. *)
Theorem database_summary_counts (conn : database) (rides : list rides_view) :
  select_rides conn = Some rides ->
  exists stats,
    ValidationResults.summary (validate_database_integrity conn) = Some stats
    /\ let overall := DatabaseSummary.overall stats in
       let vehicles := DatabaseSummary.vehicle_performance stats in
       OverallSummary.total_bookings overall = Z.of_nat (List.length rides)
       /\ 0 <= OverallSummary.unique_customers overall <= Z.of_nat (List.length rides)
       /\ 0 <= OverallSummary.vehicle_types overall <= Z.of_nat (List.length rides)
       /\ (forall first last,
             OverallSummary.earliest_date overall = Some first ->
             OverallSummary.latest_date overall = Some last ->
             date_leb first last = true)
       /\ List.NoDup (List.map VehicleRevenue.Vehicle_Type vehicles)
       /\ Sql.ordered_desc VehicleRevenue.revenue vehicles
       /\ List.fold_right Z.add 0 (List.map VehicleRevenue.bookings vehicles)
          = Z.of_nat (List.length rides).
Proof.
  intros Hr. destruct (validate_rides conn rides Hr) as (_ & Hs & _).
  eexists. split; [exact Hs|]. cbv zeta. cbn.
  split; [reflexivity|].
  split; [apply count_distinct_le|]. split; [apply count_distinct_le|].
  split.
  { intros first last Hfirst Hlast.
    apply min_date_In in Hfirst. apply max_date_Some in Hlast as [_ Hmax].
    now apply Hmax. }
  unfold vehicle_query.
  set (row_of := fun (k : option string) (g : list rides_view) =>
                   {| VehicleRevenue.Vehicle_Type := k;
                      VehicleRevenue.bookings := Sql.count_star g;
                      VehicleRevenue.revenue :=
                        Sql.sum (List.map
                          (fun r => if status_is_success r then Booking_Value (v_cols r)
                                    else Some (Fin 0)) g) |}).
  set (leb := fun a b : VehicleRevenue.t =>
                Sql.real_leb (VehicleRevenue.revenue b) (VehicleRevenue.revenue a)).
  set (rows := List.map (fun '(k, g) => row_of k g)
                 (Sql.group_by (fun r => Vehicle_Type (v_cols r)) rides)).
  pose proof (sort_by_perm leb rows) as Hperm.
  destruct (group_by_keys (fun r => Vehicle_Type (v_cols r)) row_of
              VehicleRevenue.Vehicle_Type rides (fun k g => eq_refl)) as [Hnd _].
  fold rows in Hnd.
  split; [|split].
  - eapply Permutation_NoDup; [|exact Hnd]. now apply Permutation_map.
  - apply sort_by_sorted.
    + intros a b. apply real_leb_total.
    + intros a b c Hab Hbc. eapply real_leb_trans; eassumption.
  - rewrite <- (sum_counts_perm _ _ _ Hperm). unfold rows.
    apply (sum_counts_groups _ row_of VehicleRevenue.bookings rides (fun k g => eq_refl)).
Qed.

Lemma database_summary_counts_witness :
  select_rides tied = Some (List.map view_of_row (clean_data no_parse tied_sheet))
  /\ exists stats,
       ValidationResults.summary (validate_database_integrity tied) = Some stats
       /\ OverallSummary.total_bookings (DatabaseSummary.overall stats) = 2.
Proof.
  split; [reflexivity|].
  destruct (database_summary_counts tied _ tied_rides) as (stats & Hs & Ht & _).
  exists stats. split; [exact Hs | exact Ht].
Defined.


(** ** run_project.py, once more *)


(** X19. [execute_sql_queries] returns True exactly when [rides] can be
    queried and holds a booking with status 'Success'.  What it then prints
    counts all rows and the successes, of which there is at least one, and
    its top vehicle is the vehicle type of a success. *)
Theorem execute_sql_queries_report (conn : database) :
  (is_Some (Project.execute_sql_queries conn)
   <-> exists rides, select_rides conn = Some rides
                     /\ Exists (fun r => status_is_success r = true) rides)
  /\ forall report rides,
       Project.execute_sql_queries conn = Some report ->
       select_rides conn = Some rides ->
       SqlReport.total report = Z.of_nat (List.length rides)
       /\ SqlReport.successful report
          = Z.of_nat (List.length (List.filter status_is_success rides))
       /\ 1 <= SqlReport.successful report <= SqlReport.total report
       /\ exists r, In r rides /\ status_is_success r = true
                    /\ Vehicle_Type (v_cols r) = fst (SqlReport.top_vehicle report).
Proof.
  split; [apply execute_sql_queries_iff|].
  intros report rides Hrun Hr. unfold Project.execute_sql_queries in Hrun.
  rewrite Hr in Hrun.
  destruct (Project.top_vehicle_query rides) as [|top rest] eqn:Htop; [discriminate|].
  injection Hrun as <-. cbn.
  assert (Hin : In top (Project.top_vehicle_query rides)) by (rewrite Htop; now left).
  unfold Project.top_vehicle_query in Hin. apply in_limit in Hin.
  apply (Permutation_in _ (Permutation_sym (sort_by_perm _ _))) in Hin.
  apply (in_grouped (fun r => Vehicle_Type (v_cols r))
           (fun k g => (k, Sql.round (Sql.sum (List.map (col Booking_Value) g)))))
    in Hin as (k & -> & Hk).
  apply List.in_map_iff in Hk as (r & Hk & Hr').
  apply List.filter_In in Hr' as [Hr' Hs].
  unfold Project.successes, Sql.count_star.
  split; [reflexivity|]. split; [reflexivity|]. split.
  - split.
    + assert (Hr'' : In r (List.filter status_is_success rides))
        by (apply List.filter_In; now split).
      destruct (List.filter status_is_success rides); [contradiction | cbn; lia].
    + apply inj_le. apply List.filter_length_le.
  - exists r. cbn. repeat split; assumption.
Qed.
